(** * The network orchestrator [Vivek_Anandh_U1241037.py]

    A shallow embedding of the orchestrator script: the two topology tables
    and the weight constants live in a store of module globals, every
    side effect (printing, running a process, sleeping, spawning the
    background ping, installing the signal handler) is an event appended to a
    log, and the operating system is an environment that decides how each
    process ends.  Functions of the script are monadic functions with the
    names they have in the script. *)

From Stdlib Require Import ZArith String List Ascii Bool DecimalString.
Import ListNotations.

#[local] Open Scope string_scope.
#[local] Open Scope list_scope.

(** String concatenation, Python's [+] on [str]. *)
Notation "s +++ t" := (String.append s t)
  (at level 60, right associativity).

(* ================================================================== *)
(** ** Python strings

    A [str] is modelled as a [string] whose characters are the code points
    below 256.  *)

Module Py.

Definition nl : string := String (ascii_of_nat 10) EmptyString.

(** [str(n)] for an [int]. *)
Definition str (n : Z) : string := NilZero.string_of_int (Z.to_int n).

(** [sep.join(parts)]. *)
Definition join (sep : string) (parts : list string) : string :=
  String.concat sep parts.

(** [c.isspace()] on the code points below 256. *)
Definition isspace (c : ascii) : bool :=
  let n := nat_of_ascii c in
  (((9 <=? n) && (n <=? 13)) || ((28 <=? n) && (n <=? 32))
   || (n =? 133) || (n =? 160))%nat.

Fixpoint lstrip (s : string) : string :=
  match s with
  | EmptyString => EmptyString
  | String c rest => if isspace c then lstrip rest else s
  end.

Fixpoint rstrip (s : string) : string :=
  match s with
  | EmptyString => EmptyString
  | String c rest =>
      match rstrip rest with
      | EmptyString => if isspace c then EmptyString else String c EmptyString
      | kept => String c kept
      end
  end.

(** [s.strip()]. *)
Definition strip (s : string) : string := rstrip (lstrip s).

(** [s.upper()], on ASCII letters (the router names are ASCII). *)
Definition upper_char (c : ascii) : ascii :=
  let n := nat_of_ascii c in
  if ((97 <=? n) && (n <=? 122))%nat then ascii_of_nat (n - 32) else c.

Fixpoint upper (s : string) : string :=
  match s with
  | EmptyString => EmptyString
  | String c rest => String (upper_char c) (upper rest)
  end.

(** Truth value of a [str]: only the empty string is false. *)
Definition truthy (s : string) : bool :=
  match s with EmptyString => false | String _ _ => true end.

(** Truth value of a value that is [None] or a [str]. *)
Definition truthy_opt (o : option string) : bool :=
  match o with None => false | Some s => truthy s end.

(** Every character of [s] is white space. *)
Fixpoint all_space (s : string) : bool :=
  match s with
  | EmptyString => true
  | String c rest => isspace c && all_space rest
  end.

(** The last character of a string, if any. *)
Fixpoint last_char (s : string) : option ascii :=
  match s with
  | EmptyString => None
  | String c EmptyString => Some c
  | String _ rest => last_char rest
  end.

Definition first_char (s : string) : option ascii :=
  match s with EmptyString => None | String c _ => Some c end.

Definition not_space (o : option ascii) : Prop :=
  match o with None => True | Some c => isspace c = false end.

End Py.

(* ================================================================== *)
(** ** The module globals: topology tables and weights *)

Record Interface := {
  network : string;
  ip : string
}.

(** One value of the [ROUTERS] dictionary, with all the keys the entries of
    the module have.  An entry that lacks a key, for which a lookup such as
    [config['router_id']] raises [KeyError], has no counterpart here. *)
Record RouterConfig := {
  interfaces : list (string * Interface);
  router_id : string;
  networks : list string;
  north_interface : string;
  south_interface : string
}.

(** One value of the [HOSTS] dictionary, with all the keys the entries of
    the module have; an entry that lacks a key has no counterpart here. *)
Record HostConfig := {
  host_ip : string;
  host_interface : string;
  gateway : string;
  remote_subnet : string
}.

(** A [dict] with string keys, in insertion order (the order [items()] and
    [keys()] iterate in). *)
Definition dict (V : Type) := list (string * V).

Fixpoint dict_get {V : Type} (key : string) (d : dict V) : option V :=
  match d with
  | [] => None
  | (k, v) :: rest => if String.eqb k key then Some v else dict_get key rest
  end.

Definition keys {V : Type} (d : dict V) : list string := map fst d.
Definition items {V : Type} (d : dict V) : list (string * V) := d.

(** The names bound at module level that the functions read. *)
Record Globals := {
  ROUTERS : dict RouterConfig;
  HOSTS : dict HostConfig;
  DEFAULT_WEIGHT : Z;
  HIGH_WEIGHT : Z
}.

Definition module_ROUTERS : dict RouterConfig :=
  [ ("r1", {| interfaces :=
                [ ("eth0", {| network := "net14"; ip := "10.0.14.4/24" |});
                  ("eth1", {| network := "net10"; ip := "10.0.10.3/24" |});
                  ("eth2", {| network := "net13"; ip := "10.0.13.4/24" |}) ];
              router_id := "192.168.1.1";
              networks := ["10.0.14.0/24"; "10.0.10.0/24"; "10.0.13.0/24"];
              north_interface := "eth1";
              south_interface := "eth2" |});
    ("r2", {| interfaces :=
                [ ("eth0", {| network := "net10"; ip := "10.0.10.4/24" |});
                  ("eth1", {| network := "net11"; ip := "10.0.11.3/24" |}) ];
              router_id := "192.168.1.2";
              networks := ["10.0.10.0/24"; "10.0.11.0/24"];
              north_interface := "eth0";
              south_interface := "eth1" |});
    ("r3", {| interfaces :=
                [ ("eth0", {| network := "net11"; ip := "10.0.11.4/24" |});
                  ("eth1", {| network := "net12"; ip := "10.0.12.3/24" |});
                  ("eth2", {| network := "net15"; ip := "10.0.15.4/24" |}) ];
              router_id := "192.168.1.3";
              networks := ["10.0.11.0/24"; "10.0.12.0/24"; "10.0.15.0/24"];
              north_interface := "eth0";
              south_interface := "eth1" |});
    ("r4", {| interfaces :=
                [ ("eth0", {| network := "net13"; ip := "10.0.13.3/24" |});
                  ("eth1", {| network := "net12"; ip := "10.0.12.4/24" |}) ];
              router_id := "192.168.1.4";
              networks := ["10.0.13.0/24"; "10.0.12.0/24"];
              north_interface := "eth0";
              south_interface := "eth1" |}) ].

Definition module_HOSTS : dict HostConfig :=
  [ ("hosta", {| host_ip := "10.0.14.3/24"; host_interface := "eth0";
                 gateway := "10.0.14.4"; remote_subnet := "10.0.15.0/24" |});
    ("hostb", {| host_ip := "10.0.15.3/24"; host_interface := "eth0";
                 gateway := "10.0.15.4"; remote_subnet := "10.0.14.0/24" |}) ].

(** The globals as the module body binds them. *)
Definition module_globals : Globals :=
  {| ROUTERS := module_ROUTERS;
     HOSTS := module_HOSTS;
     DEFAULT_WEIGHT := 10;
     HIGH_WEIGHT := 100 |}.

(** The interface of router [a] on the link it shares with router [b]: the
    interface of [a] whose network one of the interfaces of [b] is on too. *)
Definition on_network (net : string) (cfg : RouterConfig) : bool :=
  existsb (fun kv => String.eqb (network (snd kv)) net) (interfaces cfg).

Definition link_interface (R : dict RouterConfig) (a b : string)
  : option string :=
  match dict_get a R, dict_get b R with
  | Some ca, Some cb =>
      match filter (fun kv => on_network (network (snd kv)) cb)
                   (interfaces ca) with
      | [(name, _)] => Some name
      | _ => None
      end
  | _, _ => None
  end.

(* ================================================================== *)
(** ** Events, exceptions and the environment *)

(** A handle on a child process started with [subprocess.Popen]. *)
Definition pid := nat.

(** What is installed for a signal: Python's default handler (it raises
    [KeyboardInterrupt] on SIGINT) or the closure [signal_handler] of
    [continuous_ping], which captured [ping_process]. *)
Inductive sighandler :=
| default_int_handler
| signal_handler (ping_process : pid).

Definition SIGINT : Z := 2.

Inductive event :=
| Print (line : string)              (* print(line) *)
| Run (argv : list string)           (* subprocess.run(argv, capture_output=True,
                                        text=True, check=True) *)
| Sleep (seconds : Z)                (* time.sleep(seconds) *)
| Popen (argv : list string)         (* subprocess.Popen(argv, ...) *)
| Signal (signum : Z) (h : sighandler)   (* signal.signal(signum, h) *)
| Terminate (child : pid)            (* child.terminate() *)
| PrintHelp.                         (* parser.print_help() *)

(** The process could not be started at all. *)
Inductive os_error :=
| FileNotFoundError (filename : string)
| PermissionError (filename : string)
| OtherOSError (errno : Z).

Inductive exn :=
| CalledProcessError (returncode : Z) (cmd : list string)
                     (output stderr : string)
| OSError (e : os_error)
| UnicodeDecodeError
| IndexError
| KeyError (key : string)
| KeyboardInterrupt
| SystemExit (code : Z).

(** How a call of [subprocess.run] turns out: the process ran to its end
    and what it wrote is text; the process could not be started; the
    process ran to its end with some exit status but what it wrote is not
    text in the encoding, which [text=True] cannot decode; or the argument
    vector names no program (it is empty). *)
Inductive completion :=
| Completed (returncode : Z) (stdout stderr : string)
| NotStarted (e : os_error)
| Undecodable (returncode : Z)
| NoProgram.

(** The exception [subprocess.run] raises by itself, before [check=True] is
    looked at, for each outcome that is not a run to the end with text
    output. *)
Definition failure_of (c : completion) : option exn :=
  match c with
  | Completed _ _ _ => None
  | NotStarted e => Some (OSError e)
  | Undecodable _ => Some UnicodeDecodeError
  | NoProgram => Some IndexError
  end.

(** The process started and ended with a nonzero exit status. *)
Definition exited_nonzero (c : completion) : Prop :=
  match c with
  | Completed rc _ _ | Undecodable rc => rc <> 0%Z
  | NotStarted _ | NoProgram => False
  end.

(** What the main thread meets while it iterates over the standard output of
    the background child: a line of text, or the delivery of SIGINT. *)
Inductive pipe_item :=
| Line (text : string)
| Interrupt.

Inductive popen_outcome :=
| Spawned (child : pid) (stdout_items : list pipe_item)
| SpawnFailed (e : os_error).

(** The operating system: it decides, from the events so far and the argument
    vector, how a process ends. *)
Record environment := {
  os_run : list event -> list string -> completion;
  os_popen : list event -> list string -> popen_outcome
}.

(** Every process run by [subprocess.run] starts and runs to its end, with
    whatever exit status and whatever text as output. *)
Definition all_start (env : environment) : Prop :=
  forall history argv, exists rc out err,
    os_run env history argv = Completed rc out err.

(* ================================================================== *)
(** ** The state and the monad of the script *)

Record state := {
  globals : Globals;
  log : list event;
  sigint : sighandler
}.

Definition initial_state : state :=
  {| globals := module_globals; log := []; sigint := default_int_handler |}.

Inductive result (A : Type) :=
| Returns (a : A)
| Raises (e : exn).
Arguments Returns {A} a.
Arguments Raises {A} e.

Definition M (A : Type) : Type := state -> result A * state.

Definition ret {A : Type} (a : A) : M A := fun st => (Returns a, st).

Definition bind {A B : Type} (m : M A) (k : A -> M B) : M B :=
  fun st =>
    match m st with
    | (Returns a, st') => k a st'
    | (Raises e, st') => (Raises e, st')
    end.

Definition raise {A : Type} (e : exn) : M A := fun st => (Raises e, st).

(** [try: body except ...: handler]; [handler e] is [None] when no [except]
    clause matches [e], which then propagates. *)
Definition try_except {A : Type} (body : M A) (handler : exn -> option (M A))
  : M A :=
  fun st =>
    match body st with
    | (Returns a, st') => (Returns a, st')
    | (Raises e, st') =>
        match handler e with
        | Some h => h st'
        | None => (Raises e, st')
        end
    end.

Declare Scope py_scope.
Delimit Scope py_scope with py.
Notation "x <- m ;; k" := (bind m (fun x => k))
  (at level 61, m at next level, right associativity) : py_scope.
Notation "m ;; k" := (bind m (fun _ => k))
  (at level 61, right associativity) : py_scope.
#[local] Open Scope py_scope.

Definition emit (e : event) (st : state) : state :=
  {| globals := globals st; log := log st ++ [e]; sigint := sigint st |}.

Definition print (line : string) : M unit :=
  fun st => (Returns tt, emit (Print line) st).

Definition time_sleep (seconds : Z) : M unit :=
  fun st => (Returns tt, emit (Sleep seconds) st).

Definition print_help : M unit :=
  fun st => (Returns tt, emit PrintHelp st).

(** Reading a module global. *)
Definition read {A : Type} (name : Globals -> A) : M A :=
  fun st => (Returns (name (globals st)), st).

(** [d[key]]. *)
Definition getitem {V : Type} (d : dict V) (key : string) : M V :=
  match dict_get key d with
  | Some v => ret v
  | None => raise (KeyError key)
  end.

(** [for x in xs: body(x)]. *)
Fixpoint for_each {A : Type} (xs : list A) (body : A -> M unit) : M unit :=
  match xs with
  | [] => ret tt
  | x :: rest => body x ;; for_each rest body
  end.

(** [if flag: body]. *)
Definition when (flag : bool) (body : M unit) : M unit :=
  if flag then body else ret tt.

(** [ROUTERS[router][field]]. *)
Definition ROUTERS_at (router : string) (field : RouterConfig -> string)
  : M string :=
  R <- read ROUTERS ;;
  config <- getitem R router ;;
  ret (field config).

(** The events that are shell commands or waits. *)
Definition is_command (e : event) : bool :=
  match e with
  | Run _ | Sleep _ | Popen _ => true
  | _ => false
  end.

Definition commands_of (evs : list event) : list event :=
  filter is_command evs.

(** [p] is an initial segment of [l]. *)
Definition prefix {A : Type} (p l : list A) : Prop := exists rest, l = p ++ rest.

(* ================================================================== *)
(** ** The functions of the script *)

(** The value [subprocess.run] returns. *)
Record CompletedProcess := {
  args : list string;
  returncode : Z;
  stdout : string;
  stderr : string
}.

(** The namespace [parser.parse_args()] returns: one flag per option. *)
Module Args.
Record t := {
  start : bool;
  stop : bool;
  setup : bool;
  use_north : bool;
  use_south : bool;
  switch_to_north : bool;
  switch_to_south : bool;
  show_routes : bool;
  show_neighbors : bool;
  traceroute : bool;
  ping : bool;
  continuous_ping : bool
}.
End Args.

Section Script.

Variable env : environment.

(** [subprocess.run(argv, capture_output=True, text=True, check=True)]:
    the call is logged, the environment decides how it turns out, and
    [check=True] turns a nonzero exit status of a run with text output into
    [CalledProcessError]. *)
Definition subprocess_run (argv : list string) : M CompletedProcess :=
  fun st =>
    let st' := emit (Run argv) st in
    match os_run env (log st) argv with
    | Completed rc out err =>
        if (rc =? 0)%Z
        then (Returns {| args := argv; returncode := rc;
                         stdout := out; stderr := err |}, st')
        else (Raises (CalledProcessError rc argv out err), st')
    | NotStarted e => (Raises (OSError e), st')
    | Undecodable _ => (Raises UnicodeDecodeError, st')
    | NoProgram => (Raises IndexError, st')
    end.

(** The argument vector [run_command] hands to [subprocess.run]. *)
Definition full_cmd_of (cmd : list string) (container : option string)
  : list string :=
  if Py.truthy_opt container
  then match container with
       | Some c => ["docker"; "exec"; c] ++ cmd
       | None => cmd
       end
  else cmd.

Definition run_command (cmd : list string) (container : option string)
  : M (option string) :=
  let full_cmd := full_cmd_of cmd container in
  try_except
    (result <- subprocess_run full_cmd ;;
     ret (Some (Py.strip (stdout result))))
    (fun e =>
       match e with
       | CalledProcessError rc _ _ err =>
           Some (print ("Error executing command: " +++ Py.join " " full_cmd) ;;
                 print ("Exit code: " +++ Py.str rc) ;;
                 print ("Error output: " +++ err) ;;
                 ret None)
       | _ => None
       end).

Definition start_containers : M unit :=
  print "Starting containers..." ;;
  run_command ["docker"; "compose"; "up"; "-d"] None ;;
  time_sleep 5 ;;
  print "Containers started".

Definition stop_containers : M unit :=
  print "Stopping containers..." ;;
  run_command ["docker"; "compose"; "down"] None ;;
  print "Containers stopped".

Definition install_frr (container : string) : M unit :=
  print ("Installing FRR on " +++ container +++ "...") ;;
  run_command ["apt-get"; "update"] (Some container) ;;
  run_command ["apt"; "-y"; "install"; "curl"; "gnupg"; "lsb-release"]
              (Some container) ;;
  run_command
    ["bash"; "-c";
     "curl -s https://deb.frrouting.org/frr/keys.gpg | " +++
     "tee /usr/share/keyrings/frrouting.gpg > /dev/null"]
    (Some container) ;;
  let repo_cmd :=
    "echo deb [signed-by=/usr/share/keyrings/frrouting.gpg] " +++
    "https://deb.frrouting.org/frr $(lsb_release -s -c) frr-stable | " +++
    "tee -a /etc/apt/sources.list.d/frr.list" in
  run_command ["bash"; "-c"; repo_cmd] (Some container) ;;
  run_command ["apt"; "update"] (Some container) ;;
  run_command ["apt"; "-y"; "install"; "frr"; "frr-pythontools"]
              (Some container) ;;
  run_command ["sed"; "-i"; "s/ospfd=no/ospfd=yes/g"; "/etc/frr/daemons"]
              (Some container) ;;
  run_command ["service"; "frr"; "restart"] (Some container) ;;
  let verify_cmd := ["bash"; "-c"; "pgrep ospfd"] in
  output <- run_command verify_cmd (Some container) ;;
  match output with
  | Some pid_text =>
      if Py.truthy pid_text
      then print ("OSPF daemon running on " +++ container +++
                  " (pid " +++ pid_text +++ ")")
      else print ("Warning: OSPF daemon may not be running on " +++ container)
  | None => print ("Warning: OSPF daemon may not be running on " +++ container)
  end.

(** The text [configure_basic_ospf] builds: the opening f-string, one line
    per network, and the closing lines. *)
Definition ospf_config_of (config : RouterConfig) : string :=
  let opening :=
    Py.nl +++ "    configure terminal" +++ Py.nl +++
    "    router ospf" +++ Py.nl +++
    "    ospf router-id " +++ router_id config +++ Py.nl +++
    "    " in
  fold_left
    (fun ospf_config network =>
       ospf_config +++ "network " +++ network +++ " area 0.0.0.0" +++ Py.nl)
    (networks config) opening
  +++ "exit" +++ Py.nl +++ "end" +++ Py.nl +++ "write memory".

Definition configure_basic_ospf (router : string) (config : RouterConfig)
  : M unit :=
  let ospf_config := ospf_config_of config in
  run_command ["vtysh"; "-c"; ospf_config] (Some router) ;;
  ret tt.

Definition set_ospf_weight (router interface : string) (weight : Z)
  : M unit :=
  let cmds :=
    [ "configure terminal";
      "interface " +++ interface;
      "ip ospf cost " +++ Py.str weight;
      "exit";
      "end";
      "write memory" ] in
  let args := fold_left (fun args c => args ++ ["-c"; c]) cmds [] in
  run_command (["docker"; "exec"; router; "vtysh"] ++ args) None ;;
  ret tt.

Definition configure_ospf (path : string) : M unit :=
  print "Configuring OSPF on all routers..." ;;
  weights <-
    (if String.eqb path "north"
     then
       r1_r2_weight <- read DEFAULT_WEIGHT ;;
       r2_r3_weight <- read DEFAULT_WEIGHT ;;
       r1_r4_weight <- read HIGH_WEIGHT ;;
       r3_r4_weight <- read HIGH_WEIGHT ;;
       ret (r1_r2_weight, r2_r3_weight, r1_r4_weight, r3_r4_weight)
     else
       r1_r2_weight <- read HIGH_WEIGHT ;;
       r2_r3_weight <- read HIGH_WEIGHT ;;
       r1_r4_weight <- read DEFAULT_WEIGHT ;;
       r3_r4_weight <- read DEFAULT_WEIGHT ;;
       ret (r1_r2_weight, r2_r3_weight, r1_r4_weight, r3_r4_weight)) ;;
  let '(r1_r2_weight, r2_r3_weight, r1_r4_weight, r3_r4_weight) := weights in
  routers <- read ROUTERS ;;
  for_each (items routers) (fun '(router, config) =>
    configure_basic_ospf router config ;;
    if String.eqb router "r1" then
      i <- ROUTERS_at router north_interface ;;
      set_ospf_weight router i r1_r2_weight ;;
      i <- ROUTERS_at router south_interface ;;
      set_ospf_weight router i r1_r4_weight
    else if String.eqb router "r2" then
      i <- ROUTERS_at router north_interface ;;
      set_ospf_weight router i r1_r2_weight ;;
      i <- ROUTERS_at router south_interface ;;
      set_ospf_weight router i r2_r3_weight
    else if String.eqb router "r3" then
      i <- ROUTERS_at router north_interface ;;
      set_ospf_weight router i r2_r3_weight ;;
      i <- ROUTERS_at router south_interface ;;
      set_ospf_weight router i r3_r4_weight
    else if String.eqb router "r4" then
      i <- ROUTERS_at router north_interface ;;
      set_ospf_weight router i r1_r4_weight ;;
      i <- ROUTERS_at router south_interface ;;
      set_ospf_weight router i r3_r4_weight
    else ret tt) ;;
  print "Waiting for OSPF convergence..." ;;
  time_sleep 5 ;;
  print "OSPF configuration complete".

Definition setup_host_routes : M unit :=
  print "Setting up routes on host machines..." ;;
  hosts <- read HOSTS ;;
  for_each (items hosts) (fun '(host, config) =>
    run_command ["ip"; "route"; "add"; remote_subnet config;
                 "via"; gateway config] (Some host) ;;
    ret tt) ;;
  print "Host routes configured".

(** One call [set_ospf_weight(router, ROUTERS[router][field], WEIGHT)]: the
    arguments are evaluated from left to right, then the call is made. *)
Definition set_link_weight (router : string)
  (field : RouterConfig -> string) (WEIGHT : Globals -> Z) : M unit :=
  i <- ROUTERS_at router field ;;
  w <- read WEIGHT ;;
  set_ospf_weight router i w.

Definition switch_traffic_path (from_path to_path : string) : M unit :=
  print ("Switching traffic from " +++ from_path +++ " path to " +++
         to_path +++ " path...") ;;
  (if String.eqb from_path "north" && String.eqb to_path "south" then
     print "Step 1: Lowering cost of southern path" ;;
     set_link_weight "r1" south_interface DEFAULT_WEIGHT ;;
     set_link_weight "r4" north_interface DEFAULT_WEIGHT ;;
     set_link_weight "r3" south_interface DEFAULT_WEIGHT ;;
     set_link_weight "r4" south_interface DEFAULT_WEIGHT ;;
     print "Waiting for OSPF to converge..." ;;
     time_sleep 5 ;;
     print "Step 2: Increasing cost of northern path" ;;
     set_link_weight "r1" north_interface HIGH_WEIGHT ;;
     set_link_weight "r2" north_interface HIGH_WEIGHT ;;
     set_link_weight "r2" south_interface HIGH_WEIGHT ;;
     set_link_weight "r3" north_interface HIGH_WEIGHT
   else if String.eqb from_path "south" && String.eqb to_path "north" then
     print "Step 1: Lowering cost of northern path" ;;
     set_link_weight "r1" north_interface DEFAULT_WEIGHT ;;
     set_link_weight "r2" north_interface DEFAULT_WEIGHT ;;
     set_link_weight "r2" south_interface DEFAULT_WEIGHT ;;
     set_link_weight "r3" north_interface DEFAULT_WEIGHT ;;
     print "Waiting for OSPF to converge..." ;;
     time_sleep 5 ;;
     print "Step 2: Increasing cost of southern path" ;;
     set_link_weight "r1" south_interface HIGH_WEIGHT ;;
     set_link_weight "r4" north_interface HIGH_WEIGHT ;;
     set_link_weight "r3" south_interface HIGH_WEIGHT ;;
     set_link_weight "r4" south_interface HIGH_WEIGHT
   else ret tt) ;;
  print "Waiting for full OSPF convergence..." ;;
  time_sleep 5 ;;
  print ("Traffic switched to " +++ to_path +++ " path").

(** [print(output if output else fallback)]. *)
Definition print_or (output : option string) (fallback : string) : M unit :=
  match output with
  | Some text => if Py.truthy text then print text else print fallback
  | None => print fallback
  end.

Definition show_routing_tables : M unit :=
  routers <- read ROUTERS ;;
  for_each (keys routers) (fun router =>
    print (Py.nl +++ "=== " +++ Py.upper router +++ " Routing Table ===") ;;
    output <- run_command ["vtysh"; "-c"; "show ip route ospf"]
                          (Some router) ;;
    print_or output "No OSPF routes found").

Definition show_ospf_neighbors : M unit :=
  routers <- read ROUTERS ;;
  for_each (keys routers) (fun router =>
    print (Py.nl +++ "=== " +++ Py.upper router +++ " OSPF Neighbors ===") ;;
    output <- run_command ["vtysh"; "-c"; "show ip ospf neighbor"]
                          (Some router) ;;
    print_or output "No OSPF neighbors found").

Definition trace_route : M unit :=
  print (Py.nl +++ "=== Traceroute from HostA to HostB ===") ;;
  output <- run_command ["traceroute"; "-n"; "10.0.15.3"] (Some "hosta") ;;
  print_or output "Traceroute failed".

Definition ping_test (count : Z) : M unit :=
  print (Py.nl +++ "=== Ping test from HostA to HostB (" +++ Py.str count +++
         " packets) ===") ;;
  output <- run_command ["ping"; "-c"; Py.str count; "10.0.15.3"]
                        (Some "hosta") ;;
  print_or output "Ping failed".

(** [subprocess.Popen(argv, stdout=PIPE, stderr=PIPE, text=True, ...)]: the
    child runs in the background; the handle carries what the main thread
    will meet on the child's standard output. *)
Definition subprocess_Popen (argv : list string)
  : M (pid * list pipe_item) :=
  fun st =>
    let st' := emit (Popen argv) st in
    match os_popen env (log st) argv with
    | Spawned child stdout_items => (Returns (child, stdout_items), st')
    | SpawnFailed e => (Raises (OSError e), st')
    end.

(** [signal.signal(signum, handler)]. *)
Definition signal_signal (signum : Z) (handler : sighandler) : M unit :=
  fun st =>
    (Returns tt,
     {| globals := globals st;
        log := log st ++ [Signal signum handler];
        sigint := if (signum =? SIGINT)%Z then handler else sigint st |}).

Definition terminate (child : pid) : M unit :=
  fun st => (Returns tt, emit (Terminate child) st).

Definition sys_exit {A : Type} (code : Z) : M A := raise (SystemExit code).

(** What running a handler does; the body of [signal_handler] is the one
    nested in [continuous_ping]. *)
Definition run_handler (h : sighandler) : M unit :=
  match h with
  | default_int_handler => raise KeyboardInterrupt
  | signal_handler ping_process =>
      print (Py.nl +++ "Stopping ping...") ;;
      terminate ping_process ;;
      sys_exit 0
  end.

(** SIGINT arrives: the handler installed at that moment runs. *)
Definition deliver_SIGINT : M unit :=
  fun st => run_handler (sigint st) st.

(** [for line in ping_process.stdout: body(line)]; the loop ends when the
    child closes its output. *)
Fixpoint iterate_stdout (stdout_items : list pipe_item)
  (body : string -> M unit) : M unit :=
  match stdout_items with
  | [] => ret tt
  | Line text :: rest => body text ;; iterate_stdout rest body
  | Interrupt :: rest => deliver_SIGINT ;; iterate_stdout rest body
  end.

Definition continuous_ping : M unit :=
  print "Starting continuous ping from HostA to HostB..." ;;
  print "Press Ctrl+C to stop" ;;
  ping_process <-
    subprocess_Popen ["docker"; "exec"; "hosta"; "ping"; "10.0.15.3"] ;;
  signal_signal SIGINT (signal_handler (fst ping_process)) ;;
  try_except
    (iterate_stdout (snd ping_process) (fun line => print (Py.strip line)))
    (fun e =>
       match e with
       | KeyboardInterrupt =>
           Some (print (Py.nl +++ "Stopping ping...") ;;
                 terminate (fst ping_process))
       | _ => None
       end).

(** The body of [main] after [parse_args]; [argc] is [len(sys.argv)].  The
    function called for the two switching options is a parameter, so that
    what [main] asks of it can be stated. *)
Definition main_with (switch : string -> string -> M unit)
  (args : Args.t) (argc : nat) : M unit :=
  when (Args.start args) start_containers ;;
  when (Args.stop args) stop_containers ;;
  when (Args.setup args)
    (start_containers ;;
     routers <- read ROUTERS ;;
     for_each (keys routers) (fun router => install_frr router) ;;
     configure_ospf "north" ;;
     setup_host_routes ;;
     print "Network setup complete") ;;
  when (Args.use_north args) (configure_ospf "north") ;;
  when (Args.use_south args) (configure_ospf "south") ;;
  when (Args.switch_to_north args) (switch "south" "north") ;;
  when (Args.switch_to_south args) (switch "north" "south") ;;
  when (Args.show_routes args) show_routing_tables ;;
  when (Args.show_neighbors args) show_ospf_neighbors ;;
  when (Args.traceroute args) trace_route ;;
  when (Args.ping args) (ping_test 4) ;;
  when (Args.continuous_ping args) continuous_ping ;;
  when (argc =? 1)%nat print_help.

Definition main : Args.t -> nat -> M unit := main_with switch_traffic_path.

End Script.

(** Every function of the script, applied to its arguments. *)
Inductive operation :=
| op_run_command (cmd : list string) (container : option string)
| op_start_containers
| op_stop_containers
| op_install_frr (container : string)
| op_configure_ospf (path : string)
| op_configure_basic_ospf (router : string) (config : RouterConfig)
| op_set_ospf_weight (router interface : string) (weight : Z)
| op_setup_host_routes
| op_switch_traffic_path (from_path to_path : string)
| op_show_routing_tables
| op_show_ospf_neighbors
| op_trace_route
| op_ping_test (count : Z)
| op_continuous_ping
| op_main (args : Args.t) (argc : nat).

Definition perform (env : environment) (op : operation) : M unit :=
  match op with
  | op_run_command cmd container => run_command env cmd container ;; ret tt
  | op_start_containers => start_containers env
  | op_stop_containers => stop_containers env
  | op_install_frr container => install_frr env container
  | op_configure_ospf path => configure_ospf env path
  | op_configure_basic_ospf router config =>
      configure_basic_ospf env router config
  | op_set_ospf_weight router interface weight =>
      set_ospf_weight env router interface weight
  | op_setup_host_routes => setup_host_routes env
  | op_switch_traffic_path from_path to_path =>
      switch_traffic_path env from_path to_path
  | op_show_routing_tables => show_routing_tables env
  | op_show_ospf_neighbors => show_ospf_neighbors env
  | op_trace_route => trace_route env
  | op_ping_test count => ping_test env count
  | op_continuous_ping => continuous_ping env
  | op_main args argc => main env args argc
  end.

(** The operation reaches [continuous_ping]. *)
Definition reaches_continuous_ping (op : operation) : bool :=
  match op with
  | op_continuous_ping => true
  | op_main args _ => Args.continuous_ping args
  | _ => false
  end.

(* ================================================================== *)
(** ** Vocabulary of the properties *)

(** The commands and waits that running [m] from [st] adds to the log. *)
Definition issued {A : Type} (m : M A) (st : state) : list event :=
  commands_of (skipn (length (log st)) (log (snd (m st)))).

(** The state [st] with the events [evs] appended to its log. *)
Definition logged (evs : list event) (st : state) : state :=
  {| globals := globals st; log := log st ++ evs; sigint := sigint st |}.

(** [m] reads the globals [g], has no effect, and returns [v]. *)
Definition evaluates {A : Type} (m : M A) (g : Globals) (v : A) : Prop :=
  forall st, globals st = g -> m st = (Returns v, st).

(** The exception of a call of [subprocess.run] that the environment did
    not let run to its end with text output. *)
Definition run_failed (env : environment) (e : exn) : Prop :=
  exists history argv, failure_of (os_run env history argv) = Some e.

(** Started with the globals [g], [m] leaves them as they are and issues the
    commands and waits [script] when it returns; when it raises, a call of
    [subprocess.run] failed by itself and what was issued until then is an
    initial segment of [script]. *)
Definition issues (env : environment) {A : Type} (m : M A) (g : Globals)
  (script : list event) : Prop :=
  forall st, globals st = g ->
    exists evs,
      globals (snd (m st)) = g /\
      log (snd (m st)) = log st ++ evs /\
      match fst (m st) with
      | Returns _ => commands_of evs = script
      | Raises e => prefix (commands_of evs) script /\ run_failed env e
      end.

(** Every run of [m] relates the state before to the state after by [R],
    and raises only exceptions in [E]. *)
Definition confined (R : state -> state -> Prop) (E : exn -> Prop)
  {A : Type} (m : M A) : Prop :=
  forall st, R st (snd (m st)) /\
             forall e, fst (m st) = Raises e -> E e.

(** The module globals are the same in both states. *)
Definition same_globals (st st' : state) : Prop := globals st' = globals st.

(** The events of the foreground: no child in the background, no signal
    handler, no termination of a child. *)
Definition foreground (e : event) : bool :=
  match e with
  | Print _ | Run _ | Sleep _ | PrintHelp => true
  | Popen _ | Signal _ _ | Terminate _ => false
  end.

(** From [st] to [st'] only foreground events were logged and the handler
    of SIGINT is the same. *)
Definition stays_in_foreground (st st' : state) : Prop :=
  sigint st' = sigint st /\
  exists evs, log st' = log st ++ evs /\ forallb foreground evs = true.

(** The exceptions of a call of [subprocess.run] that failed by itself (the
    process did not start, its output is not text, the argument vector is
    empty) or of a missing key. *)
Definition plain_error (e : exn) : Prop :=
  match e with
  | OSError _ | UnicodeDecodeError | IndexError | KeyError _ => True
  | CalledProcessError _ _ _ _ | KeyboardInterrupt | SystemExit _ => False
  end.

(** *** The commands, as the properties name them *)

(** The one process that sets the OSPF cost of an interface. *)
Definition weight_command (router interface : string) (weight : Z) : event :=
  Run [ "docker"; "exec"; router; "vtysh";
        "-c"; "configure terminal";
        "-c"; "interface " +++ interface;
        "-c"; "ip ospf cost " +++ Py.str weight;
        "-c"; "exit";
        "-c"; "end";
        "-c"; "write memory" ].

(** The name of the interface of [a] on its link with [b], by the
    [interfaces] tables of the module's [ROUTERS]. *)
Definition link_name (a b : string) : string :=
  match link_interface module_ROUTERS a b with
  | Some name => name
  | None => EmptyString
  end.

(** Setting the cost of the link between [a] and [b], at the end of [a]. *)
Definition on_link (a b : string) (cost : Z) : event :=
  weight_command a (link_name a b) cost.

(** The text of the basic configuration: the router-id, then each network
    in area 0.0.0.0. *)
Definition ospf_text (rid : string) (nets : list string) : string :=
  Py.nl +++ "    configure terminal" +++ Py.nl +++
  "    router ospf" +++ Py.nl +++
  "    ospf router-id " +++ rid +++ Py.nl +++
  "    " +++
  String.concat ""
    (map (fun n => "network " +++ n +++ " area 0.0.0.0" +++ Py.nl) nets) +++
  "exit" +++ Py.nl +++ "end" +++ Py.nl +++ "write memory".

Definition basic_command (router rid : string) (nets : list string) : event :=
  Run ["docker"; "exec"; router; "vtysh"; "-c"; ospf_text rid nets].

(** What [configure_ospf] issues when the northern links get the cost
    [north] and the southern links the cost [south]. *)
Definition configure_ospf_script (north south : Z) : list event :=
  [ basic_command "r1" "192.168.1.1"
      ["10.0.14.0/24"; "10.0.10.0/24"; "10.0.13.0/24"];
    on_link "r1" "r2" north;
    on_link "r1" "r4" south;
    basic_command "r2" "192.168.1.2" ["10.0.10.0/24"; "10.0.11.0/24"];
    on_link "r2" "r1" north;
    on_link "r2" "r3" north;
    basic_command "r3" "192.168.1.3"
      ["10.0.11.0/24"; "10.0.12.0/24"; "10.0.15.0/24"];
    on_link "r3" "r2" north;
    on_link "r3" "r4" south;
    basic_command "r4" "192.168.1.4" ["10.0.13.0/24"; "10.0.12.0/24"];
    on_link "r4" "r1" south;
    on_link "r4" "r3" south;
    Sleep 5 ].

Definition configure_ospf_issues (path : string) : list event :=
  if String.eqb path "north"
  then configure_ospf_script 10 100
  else configure_ospf_script 100 10.

(** The four link ends of a path: the northern path runs over the links
    R1-R2 and R2-R3, the southern path over R1-R4 and R3-R4. *)
Definition path_links (path : string) : list (string * string) :=
  if String.eqb path "north"
  then [("r1", "r2"); ("r2", "r1"); ("r2", "r3"); ("r3", "r2")]
  else [("r1", "r4"); ("r4", "r1"); ("r3", "r4"); ("r4", "r3")].

Definition set_path_cost (path : string) (cost : Z) : list event :=
  map (fun '(a, b) => on_link a b cost) (path_links path).

Definition supported (from_path to_path : string) : bool :=
  (String.eqb from_path "north" && String.eqb to_path "south")
  || (String.eqb from_path "south" && String.eqb to_path "north").

(** What [switch_traffic_path] issues: for a supported pair the costs of
    the destination are lowered, then a wait, then the costs of the origin
    are raised; in every case a last wait. *)
Definition switch_traffic_path_issues (from_path to_path : string)
  : list event :=
  (if supported from_path to_path
   then set_path_cost to_path 10 ++ [Sleep 5] ++ set_path_cost from_path 100
   else [])
  ++ [Sleep 5].

Definition install_frr_issues (container : string) : list event :=
  map (fun cmd => Run (full_cmd_of cmd (Some container)))
    [ ["apt-get"; "update"];
      ["apt"; "-y"; "install"; "curl"; "gnupg"; "lsb-release"];
      ["bash"; "-c";
       "curl -s https://deb.frrouting.org/frr/keys.gpg | tee /usr/share/keyrings/frrouting.gpg > /dev/null"];
      ["bash"; "-c";
       "echo deb [signed-by=/usr/share/keyrings/frrouting.gpg] https://deb.frrouting.org/frr $(lsb_release -s -c) frr-stable | tee -a /etc/apt/sources.list.d/frr.list"];
      ["apt"; "update"];
      ["apt"; "-y"; "install"; "frr"; "frr-pythontools"];
      ["sed"; "-i"; "s/ospfd=no/ospfd=yes/g"; "/etc/frr/daemons"];
      ["service"; "frr"; "restart"];
      ["bash"; "-c"; "pgrep ospfd"] ].

Definition start_containers_issues : list event :=
  [Run ["docker"; "compose"; "up"; "-d"]; Sleep 5].

Definition stop_containers_issues : list event :=
  [Run ["docker"; "compose"; "down"]].

Definition setup_host_routes_issues : list event :=
  [ Run ["docker"; "exec"; "hosta";
         "ip"; "route"; "add"; "10.0.15.0/24"; "via"; "10.0.14.4"];
    Run ["docker"; "exec"; "hostb";
         "ip"; "route"; "add"; "10.0.14.0/24"; "via"; "10.0.15.4"] ].

(** One [vtysh] query in each of the four routers. *)
Definition show_issues (query : string) : list event :=
  map (fun router => Run ["docker"; "exec"; router; "vtysh"; "-c"; query])
      ["r1"; "r2"; "r3"; "r4"].

Definition in_hosta (cmd : list string) : list event :=
  [Run (["docker"; "exec"; "hosta"] ++ cmd)].

(** What [main] issues when [continuous_ping] is not asked for. *)
Definition main_issues (args : Args.t) : list event :=
  (if Args.start args then start_containers_issues else []) ++
  (if Args.stop args then stop_containers_issues else []) ++
  (if Args.setup args
   then start_containers_issues ++
        flat_map install_frr_issues ["r1"; "r2"; "r3"; "r4"] ++
        configure_ospf_issues "north" ++
        setup_host_routes_issues
   else []) ++
  (if Args.use_north args then configure_ospf_issues "north" else []) ++
  (if Args.use_south args then configure_ospf_issues "south" else []) ++
  (if Args.switch_to_north args
   then switch_traffic_path_issues "south" "north" else []) ++
  (if Args.switch_to_south args
   then switch_traffic_path_issues "north" "south" else []) ++
  (if Args.show_routes args then show_issues "show ip route ospf" else []) ++
  (if Args.show_neighbors args
   then show_issues "show ip ospf neighbor" else []) ++
  (if Args.traceroute args
   then in_hosta ["traceroute"; "-n"; "10.0.15.3"] else []) ++
  (if Args.ping args then in_hosta ["ping"; "-c"; "4"; "10.0.15.3"] else []).

(** What each operation issues, started with the globals of the module. *)
Definition perform_issues (op : operation) : list event :=
  match op with
  | op_run_command cmd container => [Run (full_cmd_of cmd container)]
  | op_start_containers => start_containers_issues
  | op_stop_containers => stop_containers_issues
  | op_install_frr container => install_frr_issues container
  | op_configure_ospf path => configure_ospf_issues path
  | op_configure_basic_ospf router config =>
      [Run (full_cmd_of ["vtysh"; "-c";
                         ospf_text (router_id config) (networks config)]
                        (Some router))]
  | op_set_ospf_weight router interface weight =>
      [weight_command router interface weight]
  | op_setup_host_routes => setup_host_routes_issues
  | op_switch_traffic_path from_path to_path =>
      switch_traffic_path_issues from_path to_path
  | op_show_routing_tables => show_issues "show ip route ospf"
  | op_show_ospf_neighbors => show_issues "show ip ospf neighbor"
  | op_trace_route => in_hosta ["traceroute"; "-n"; "10.0.15.3"]
  | op_ping_test count => in_hosta ["ping"; "-c"; Py.str count; "10.0.15.3"]
  | op_continuous_ping => []
  | op_main args _ => main_issues args
  end.

(** *** The background ping *)

Definition ping_argv : list string :=
  ["docker"; "exec"; "hosta"; "ping"; "10.0.15.3"].

(** The lines of the child, as [continuous_ping] prints them. *)
Definition print_lines (lines : list string) : list event :=
  map (fun line => Print (Py.strip line)) lines.

(** The history at which [continuous_ping], started in [st], spawns the
    child. *)
Definition before_spawn (st : state) : list event :=
  log st ++ [Print "Starting continuous ping from HostA to HostB..."]
         ++ [Print "Press Ctrl+C to stop"].

(** The state [continuous_ping] is in once the child [child] was spawned,
    the handler installed and the events [evs] logged after that. *)
Definition pinging (child : pid) (evs : list event) (st : state) : state :=
  {| globals := globals st;
     log := log st ++
            [ Print "Starting continuous ping from HostA to HostB...";
              Print "Press Ctrl+C to stop";
              Popen ping_argv;
              Signal SIGINT (signal_handler child) ] ++ evs;
     sigint := signal_handler child |}.

(** The command line [--continuous-ping]. *)
Definition only_continuous_ping : Args.t :=
  {| Args.start := false; Args.stop := false; Args.setup := false;
     Args.use_north := false; Args.use_south := false;
     Args.switch_to_north := false; Args.switch_to_south := false;
     Args.show_routes := false; Args.show_neighbors := false;
     Args.traceroute := false; Args.ping := false;
     Args.continuous_ping := true |}.

(** The command line [--setup --switch-to-south --ping]. *)
Definition setup_switch_ping : Args.t :=
  {| Args.start := false; Args.stop := false; Args.setup := true;
     Args.use_north := false; Args.use_south := false;
     Args.switch_to_north := false; Args.switch_to_south := true;
     Args.show_routes := false; Args.show_neighbors := false;
     Args.traceroute := false; Args.ping := true;
     Args.continuous_ping := false |}.

(** *** White space *)

(** [t] is [s] without the white space around it. *)
Definition stripped (s t : string) : Prop :=
  exists l r,
    s = l +++ t +++ r /\
    Py.all_space l = true /\ Py.all_space r = true /\
    Py.not_space (Py.first_char t) /\ Py.not_space (Py.last_char t).

(** *** Sample environments *)

(** Every process exits with status 0 and prints nothing. *)
Definition all_succeed : environment :=
  {| os_run := fun _ _ => Completed 0 EmptyString EmptyString;
     os_popen := fun _ _ => Spawned 1 [] |}.

(** Every process exits with status 1. *)
Definition all_fail : environment :=
  {| os_run := fun _ _ => Completed 1 EmptyString "failed";
     os_popen := fun _ _ => Spawned 1 [] |}.

(** No process can be started: the [docker] binary is missing. *)
Definition no_docker : environment :=
  {| os_run := fun _ _ => NotStarted (FileNotFoundError "docker");
     os_popen := fun _ _ => SpawnFailed (FileNotFoundError "docker") |}.

(** Every process ends with exit status 1 and writes bytes that are not
    text. *)
Definition undecodable_failure : environment :=
  {| os_run := fun _ _ => Undecodable 1;
     os_popen := fun _ _ => Spawned 1 [] |}.

(** The background ping prints two lines, then SIGINT arrives. *)
Definition interrupted_ping : environment :=
  {| os_run := fun _ _ => Completed 0 EmptyString EmptyString;
     os_popen := fun _ _ =>
       Spawned 42 [Line "64 bytes from 10.0.15.3: icmp_seq=1";
                   Line "64 bytes from 10.0.15.3: icmp_seq=2";
                   Interrupt;
                   Line "64 bytes from 10.0.15.3: icmp_seq=3"] |}.

(* ================================================================== *)
(** ** Vocabulary of the further properties *)

(** *** The loops over the tables, for any table *)

(** The costs [configure_ospf] gives to the northern and to the southern
    links. *)
Definition north_cost (g : Globals) (path : string) : Z :=
  if String.eqb path "north" then DEFAULT_WEIGHT g else HIGH_WEIGHT g.

Definition south_cost (g : Globals) (path : string) : Z :=
  if String.eqb path "north" then HIGH_WEIGHT g else DEFAULT_WEIGHT g.

(** What [configure_ospf] issues for one entry of the table: the basic
    configuration and, for the four names it knows, the costs of the two
    links, with the interface names the table holds for that name. *)
Definition router_issues (g : Globals) (path : string)
  (entry : string * RouterConfig) : list event :=
  let '(router, config) := entry in
  Run (full_cmd_of ["vtysh"; "-c";
                    ospf_text (router_id config) (networks config)]
                   (Some router)) ::
  match dict_get router (ROUTERS g) with
  | Some current =>
      let north := weight_command router (north_interface current) in
      let south := weight_command router (south_interface current) in
      if String.eqb router "r1"
      then [north (north_cost g path); south (south_cost g path)]
      else if String.eqb router "r2"
      then [north (north_cost g path); south (north_cost g path)]
      else if String.eqb router "r3"
      then [north (north_cost g path); south (south_cost g path)]
      else if String.eqb router "r4"
      then [north (south_cost g path); south (south_cost g path)]
      else []
  | None => []
  end.

(** The route [setup_host_routes] adds in one host. *)
Definition host_route (entry : string * HostConfig) : event :=
  let '(host, config) := entry in
  Run (full_cmd_of ["ip"; "route"; "add"; remote_subnet config;
                    "via"; gateway config] (Some host)).

(** One [vtysh] query in one router. *)
Definition router_query (query router : string) : event :=
  Run (full_cmd_of ["vtysh"; "-c"; query] (Some router)).

(** *** Sample tables *)

(** A table with a router the script has no name for, and without r1, r2
    and r4. *)
Definition edge_and_r3 : Globals :=
  {| ROUTERS :=
       [ ("edge", {| interfaces := [];
                     router_id := "192.168.1.9";
                     networks := ["10.0.99.0/24"];
                     north_interface := "eth0";
                     south_interface := "eth1" |});
         ("r3", {| interfaces := [];
                   router_id := "192.168.1.3";
                   networks := [];
                   north_interface := "eth0";
                   south_interface := "eth1" |}) ];
     HOSTS := [];
     DEFAULT_WEIGHT := 10;
     HIGH_WEIGHT := 100 |}.

(** The table of the module without its entry for r4. *)
Definition without_r4 : Globals :=
  {| ROUTERS := firstn 3 module_ROUTERS;
     HOSTS := module_HOSTS;
     DEFAULT_WEIGHT := 10;
     HIGH_WEIGHT := 100 |}.

Definition state_with (g : Globals) : state :=
  {| globals := g; log := []; sigint := default_int_handler |}.

(** The line [switch_traffic_path] prints before it lowers the costs. *)
Definition step_1_line (from_path : string) : string :=
  if String.eqb from_path "north"
  then "Step 1: Lowering cost of southern path"
  else "Step 1: Lowering cost of northern path".

(** *** What the callers print *)

(** The three lines [run_command] prints when the process exits with a
    nonzero status, none when it exits with status 0. *)
Definition failure_lines (argv : list string) (rc : Z) (err : string)
  : list event :=
  if (rc =? 0)%Z then []
  else [ Print ("Error executing command: " +++ Py.join " " argv);
         Print ("Exit code: " +++ Py.str rc);
         Print ("Error output: " +++ err) ].

(** The output a caller gets from [run_command] counts when the process
    exited with status 0 and printed more than white space. *)
Definition has_output (rc : Z) (out : string) : bool :=
  (rc =? 0)%Z && Py.truthy (Py.strip out).

(** The line printed after a query. *)
Definition query_report (rc : Z) (out fallback : string) : string :=
  if has_output rc out then Py.strip out else fallback.

(** The line [install_frr] prints after its check with [pgrep]. *)
Definition verification_line (container : string) (rc : Z) (out : string)
  : string :=
  if has_output rc out
  then "OSPF daemon running on " +++ container +++
       " (pid " +++ Py.strip out +++ ")"
  else "Warning: OSPF daemon may not be running on " +++ container.

(** The line an operation prints last, for those that report that they are
    done. *)
Definition completion_line (op : operation) : option string :=
  match op with
  | op_start_containers => Some "Containers started"
  | op_stop_containers => Some "Containers stopped"
  | op_configure_ospf _ => Some "OSPF configuration complete"
  | op_setup_host_routes => Some "Host routes configured"
  | op_switch_traffic_path _ to_path =>
      Some ("Traffic switched to " +++ to_path +++ " path")
  | _ => None
  end.

(** [m], when it returns, has logged the print of [line] last. *)
Definition concludes {A : Type} (m : M A) (line : string) : Prop :=
  forall st a st',
    m st = (Returns a, st') -> exists evs, log st' = evs ++ [Print line].

(** Every process exits with status 0 and prints a blank line. *)
Definition blank_output : environment :=
  {| os_run := fun _ _ => Completed 0 ("  " +++ Py.nl) EmptyString;
     os_popen := fun _ _ => Spawned 1 [] |}.

(** Every process prints the number 4242 and exits with status 1. *)
Definition fails_with_4242 : environment :=
  {| os_run := fun _ _ => Completed 1 ("4242" +++ Py.nl) EmptyString;
     os_popen := fun _ _ => Spawned 1 [] |}.

(** The background ping prints two lines and ends by itself. *)
Definition ping_ends : environment :=
  {| os_run := fun _ _ => Completed 0 EmptyString EmptyString;
     os_popen := fun _ _ =>
       Spawned 42 [Line "64 bytes from 10.0.15.3: icmp_seq=1";
                   Line "64 bytes from 10.0.15.3: icmp_seq=2"] |}.

(** Every process exits with status 0 and prints the number 4242. *)
Definition prints_4242 : environment :=
  {| os_run := fun _ _ => Completed 0 ("4242" +++ Py.nl) EmptyString;
     os_popen := fun _ _ => Spawned 1 [] |}.

(** *** The costs the script has asked for *)

Fixpoint same_strings (xs ys : list string) : bool :=
  match xs, ys with
  | [], [] => true
  | x :: xs', y :: ys' => String.eqb x y && same_strings xs' ys'
  | _, _ => false
  end.

(** When an event is the command of [set_ospf_weight]: the router, the
    argument that names the interface and the argument that gives the
    cost. *)
Definition cost_setting (e : event) : option (string * string * string) :=
  match e with
  | Run [a0; a1; router; a3; c0; l0; c1; interface_line; c2; cost_line;
         c3; l3; c4; l4; c5; l5] =>
      if same_strings
           [a0; a1; a3; c0; l0; c1; c2; c3; l3; c4; l4; c5; l5]
           ["docker"; "exec"; "vtysh"; "-c"; "configure terminal"; "-c";
            "-c"; "-c"; "exit"; "-c"; "end"; "-c"; "write memory"]
      then Some (router, interface_line, cost_line)
      else None
  | _ => None
  end.

(** A table of costs: for a router and an interface, the last cost asked
    for.  A new setting takes the place of the one for the same interface of
    the same router, or is added at the end. *)
Fixpoint record_cost (router interface_line cost_line : string)
  (table : list (string * string * string))
  : list (string * string * string) :=
  match table with
  | [] => [(router, interface_line, cost_line)]
  | (r, i, c) :: rest =>
      if String.eqb r router && String.eqb i interface_line
      then (r, i, cost_line) :: rest
      else (r, i, c) :: record_cost router interface_line cost_line rest
  end.

(** The costs asked for by the commands [evs], in their order. *)
Definition commanded_costs (evs : list event)
  : list (string * string * string) :=
  fold_left
    (fun table e =>
       match cost_setting e with
       | Some (router, interface_line, cost_line) =>
           record_cost router interface_line cost_line table
       | None => table
       end)
    evs [].

Fixpoint cost_at (table : list (string * string * string))
  (router interface_line : string) : option string :=
  match table with
  | [] => None
  | (r, i, c) :: rest =>
      if String.eqb r router && String.eqb i interface_line
      then Some c
      else cost_at rest router interface_line
  end.

(** All four link ends of [path] have the cost [DEFAULT_WEIGHT] of the
    module in [table]. *)
Definition path_is_low (table : list (string * string * string))
  (path : string) : bool :=
  forallb
    (fun '(a, b) =>
       match cost_at table a ("interface " +++ link_name a b) with
       | Some cost_line =>
           String.eqb cost_line
             ("ip ospf cost " +++ Py.str (DEFAULT_WEIGHT module_globals))
       | None => false
       end)
    (path_links path).

(** *** The lines of the basic configuration *)

(** Four spaces before the first of the lines. *)
Definition indent_first (lines : list string) : list string :=
  match lines with
  | [] => []
  | first :: rest => ("    " +++ first) :: rest
  end.

(** The lines of the text [configure_basic_ospf] hands to [vtysh]. *)
Definition ospf_lines (rid : string) (nets : list string) : list string :=
  [ EmptyString;
    "    configure terminal";
    "    router ospf";
    "    ospf router-id " +++ rid ] ++
  indent_first
    (map (fun n => "network " +++ n +++ " area 0.0.0.0") nets ++ ["exit"]) ++
  [ "end"; "write memory" ].

(** The command line [--stop --start], in either order. *)
Definition start_and_stop : Args.t :=
  {| Args.start := true; Args.stop := true; Args.setup := false;
     Args.use_north := false; Args.use_south := false;
     Args.switch_to_north := false; Args.switch_to_south := false;
     Args.show_routes := false; Args.show_neighbors := false;
     Args.traceroute := false; Args.ping := false;
     Args.continuous_ping := false |}.

(** The event is the termination of a child. *)
Definition is_terminate (e : event) : bool :=
  match e with Terminate _ => true | _ => false end.

(** *** When no process can be started *)

Definition is_run (e : event) : bool :=
  match e with Run _ => true | _ => false end.

(** No event of [evs] is the run of a process. *)
Definition no_run (evs : list event) : Prop :=
  existsb is_run evs = false.

(** The commands and waits of a script up to its first process, that
    process included. *)
Fixpoint through_first_run (script : list event) : list event :=
  match script with
  | [] => []
  | Run argv :: _ => [Run argv]
  | e :: rest => e :: through_first_run rest
  end.

(** [m] runs no process after one that raised: when it returns or raises
    another exception than [OSError] it has run none, and when it raises
    [OSError] the run of a process is the last event it logged and the only
    run. *)
Definition stops_at_first_run {A : Type} (m : M A) : Prop :=
  forall st, exists evs,
    log (snd (m st)) = log st ++ evs /\
    match fst (m st) with
    | Raises (OSError _) =>
        exists before argv, evs = before ++ [Run argv] /\ no_run before
    | _ => no_run evs
    end.

(* ================================================================== *)
(** * Properties *)

(** ** Lists *)

Lemma commands_of_app (xs ys : list event) :
  commands_of (xs ++ ys) = commands_of xs ++ commands_of ys.
Proof. apply filter_app. Qed.

Lemma prefix_refl {A : Type} (l : list A) : prefix l l.
Proof. exists []. symmetry. apply app_nil_r. Qed.

Lemma prefix_app_r {A : Type} (p l more : list A) :
  prefix p l -> prefix p (l ++ more).
Proof.
  intros [rest ->]. exists (rest ++ more). symmetry. apply app_assoc.
Qed.

Lemma prefix_app_l {A : Type} (common p l : list A) :
  prefix p l -> prefix (common ++ p) (common ++ l).
Proof.
  intros [rest ->]. exists rest. apply app_assoc.
Qed.

Lemma skipn_length_app {A : Type} (xs ys : list A) :
  skipn (length xs) (xs ++ ys) = ys.
Proof. induction xs as [|x xs IH]; simpl; auto. Qed.

(** ** The rules of [evaluates] and [issues] *)

Section Logic.

Variable env : environment.

Lemma evaluates_ret {A : Type} (a : A) g : evaluates (ret a) g a.
Proof. intros st _. reflexivity. Qed.

Lemma evaluates_read {A : Type} (name : Globals -> A) g :
  evaluates (read name) g (name g).
Proof. intros st <-. reflexivity. Qed.

Lemma evaluates_getitem {V : Type} (d : dict V) key v g :
  dict_get key d = Some v -> evaluates (getitem d key) g v.
Proof. intros H st _. unfold getitem. rewrite H. reflexivity. Qed.

Lemma evaluates_bind {A B : Type} (m : M A) (k : A -> M B) g a b :
  evaluates m g a -> evaluates (k a) g b -> evaluates (bind m k) g b.
Proof.
  intros Hm Hk st Hg. unfold bind. rewrite (Hm st Hg). apply Hk, Hg.
Qed.

Lemma evaluates_ROUTERS_at router field g config :
  dict_get router (ROUTERS g) = Some config ->
  evaluates (ROUTERS_at router field) g (field config).
Proof.
  intros H. unfold ROUTERS_at.
  eapply evaluates_bind; [apply evaluates_read|].
  eapply evaluates_bind; [apply evaluates_getitem, H|].
  apply evaluates_ret.
Qed.

Lemma issues_eq {A : Type} (m : M A) g s s' :
  issues env m g s -> s = s' -> issues env m g s'.
Proof. intros H <-. exact H. Qed.

Lemma issues_ret {A : Type} (a : A) g : issues env (ret a) g [].
Proof.
  intros st Hg. exists []. simpl. rewrite app_nil_r. auto.
Qed.

Lemma issues_bind {A B : Type} (m : M A) (k : A -> M B) g s1 s2 :
  issues env m g s1 -> (forall a, issues env (k a) g s2) ->
  issues env (bind m k) g (s1 ++ s2).
Proof.
  intros Hm Hk st Hg.
  destruct (Hm st Hg) as (evs1 & G1 & L1 & R1).
  unfold bind. destruct (m st) as [[a|e] st1]; simpl in *.
  - destruct (Hk a st1 G1) as (evs2 & G2 & L2 & R2).
    exists (evs1 ++ evs2). split; [exact G2|]. split.
    + rewrite L2, L1. symmetry. apply app_assoc.
    + rewrite commands_of_app, R1.
      destruct (fst (k a st1)).
      * now rewrite R2.
      * destruct R2 as [P N]. split; [|exact N]. now apply prefix_app_l.
  - exists evs1. destruct R1 as [P N].
    repeat split; auto. now apply prefix_app_r.
Qed.

Lemma issues_evaluated {A B : Type} (m : M A) (k : A -> M B) g a s :
  evaluates m g a -> issues env (k a) g s -> issues env (bind m k) g s.
Proof.
  intros Hm Hk st Hg. unfold bind. rewrite (Hm st Hg). apply Hk, Hg.
Qed.

Lemma issues_emit {A : Type} (e : event) (a : A) g :
  issues env (fun st => (Returns a, emit e st)) g (commands_of [e]).
Proof.
  intros st Hg. exists [e]. simpl. auto.
Qed.

Lemma issues_print line g : issues env (print line) g [].
Proof. apply (issues_emit (Print line) tt). Qed.

Lemma issues_time_sleep n g : issues env (time_sleep n) g [Sleep n].
Proof. apply (issues_emit (Sleep n) tt). Qed.

Lemma issues_print_help g : issues env print_help g [].
Proof. apply (issues_emit PrintHelp tt). Qed.

Lemma issues_for_each {A : Type} (xs : list A) (body : A -> M unit) g
  (script : A -> list event) :
  (forall x, issues env (body x) g (script x)) ->
  issues env (for_each xs body) g (flat_map script xs).
Proof.
  intros H. induction xs as [|x xs IH]; simpl.
  - apply issues_ret.
  - apply issues_bind; auto.
Qed.

Lemma issues_when flag (m : M unit) g s :
  issues env m g s -> issues env (when flag m) g (if flag then s else []).
Proof. destruct flag; simpl; auto using issues_ret. Qed.

(** What [issues] gives on one run. *)
Lemma issues_prefix {A : Type} (m : M A) g s st :
  issues env m g s -> globals st = g -> prefix (issued m st) s.
Proof.
  intros H Hg. destruct (H st Hg) as (evs & _ & L & R).
  unfold issued. rewrite L, skipn_length_app.
  destruct (fst (m st)); [rewrite R; apply prefix_refl | apply R].
Qed.

Lemma issues_returns {A : Type} (m : M A) g s st :
  issues env m g s -> globals st = g -> all_start env ->
  (exists a, fst (m st) = Returns a) /\ issued m st = s.
Proof.
  intros H Hg Hall. destruct (H st Hg) as (evs & _ & L & R).
  unfold issued. rewrite L, skipn_length_app.
  destruct (fst (m st)) as [a|e]; [eauto|].
  destruct R as (_ & h & argv & N).
  destruct (Hall h argv) as (rc & out & err & C).
  rewrite C in N. discriminate N.
Qed.

Lemma issues_returned {A : Type} (m : M A) g s st a :
  issues env m g s -> globals st = g -> fst (m st) = Returns a ->
  issued m st = s.
Proof.
  intros H Hg E. destruct (H st Hg) as (evs & _ & L & R).
  unfold issued. rewrite L, skipn_length_app. now rewrite E in R.
Qed.

(** ** [run_command] *)

Lemma run_command_completed cmd container st rc out err :
  os_run env (log st) (full_cmd_of cmd container) = Completed rc out err ->
  run_command env cmd container st =
    if (rc =? 0)%Z
    then (Returns (Some (Py.strip out)),
          logged [Run (full_cmd_of cmd container)] st)
    else (Returns None,
          logged [ Run (full_cmd_of cmd container);
                   Print ("Error executing command: " +++
                          Py.join " " (full_cmd_of cmd container));
                   Print ("Exit code: " +++ Py.str rc);
                   Print ("Error output: " +++ err) ] st).
Proof.
  intros H. unfold run_command, try_except, bind, subprocess_run.
  rewrite H. destruct (rc =? 0)%Z; simpl; [reflexivity|].
  unfold logged, emit; simpl. rewrite <- !app_assoc. reflexivity.
Qed.

Lemma run_command_not_started cmd container st oe :
  os_run env (log st) (full_cmd_of cmd container) = NotStarted oe ->
  run_command env cmd container st =
    (Raises (OSError oe), logged [Run (full_cmd_of cmd container)] st).
Proof.
  intros H. unfold run_command, try_except, bind, subprocess_run.
  rewrite H. reflexivity.
Qed.

Lemma run_command_failed cmd container st e :
  failure_of (os_run env (log st) (full_cmd_of cmd container)) = Some e ->
  run_command env cmd container st =
    (Raises e, logged [Run (full_cmd_of cmd container)] st).
Proof.
  intros H. unfold run_command, try_except, bind, subprocess_run.
  destruct (os_run env (log st) (full_cmd_of cmd container));
    simpl in H; try discriminate H; now injection H as <-.
Qed.

Lemma run_command_outcome cmd container st :
  (exists rc out err,
      os_run env (log st) (full_cmd_of cmd container) = Completed rc out err)
  \/ (exists e,
      failure_of (os_run env (log st) (full_cmd_of cmd container)) = Some e).
Proof.
  destruct (os_run env (log st) (full_cmd_of cmd container)); simpl; eauto.
Qed.

Lemma issues_run_command cmd container g :
  issues env (run_command env cmd container) g
         [Run (full_cmd_of cmd container)].
Proof.
  intros st Hg.
  destruct (run_command_outcome cmd container st)
    as [(rc & out & err & E)|[e E]].
  - rewrite (run_command_completed _ _ _ _ _ _ E).
    destruct (rc =? 0)%Z; eexists; simpl; auto.
  - rewrite (run_command_failed _ _ _ _ E).
    eexists; simpl. repeat split; auto using prefix_refl.
    now exists (log st), (full_cmd_of cmd container).
Qed.

(** ** The functions, one by one *)

Ltac issue :=
  repeat first
    [ apply issues_print
    | apply issues_time_sleep
    | apply issues_print_help
    | apply issues_run_command
    | apply issues_ret
    | eapply issues_bind; [ | intro ] ].

Lemma issues_print_or output fallback g :
  issues env (print_or output fallback) g [].
Proof.
  destruct output as [text|]; simpl; [destruct (Py.truthy text)|]; issue.
Qed.

Lemma issues_start_containers g :
  issues env (start_containers env) g start_containers_issues.
Proof.
  eapply issues_eq; [unfold start_containers; issue | reflexivity].
Qed.

Lemma issues_stop_containers g :
  issues env (stop_containers env) g stop_containers_issues.
Proof.
  eapply issues_eq; [unfold stop_containers; issue | reflexivity].
Qed.

Lemma issues_install_frr container g :
  issues env (install_frr env container) g (install_frr_issues container).
Proof.
  eapply issues_eq.
  - unfold install_frr. issue.
    match goal with
    | |- issues _ (match ?o with Some _ => _ | None => _ end) _ _ =>
        destruct o as [t|]; [destruct (Py.truthy t)|]
    end; issue.
  - reflexivity.
Qed.

Lemma issues_set_ospf_weight router interface weight g :
  issues env (set_ospf_weight env router interface weight) g
         [weight_command router interface weight].
Proof.
  eapply issues_eq; [unfold set_ospf_weight; issue | reflexivity].
Qed.

Lemma concat_empty_cons (x : string) (xs : list string) :
  String.concat "" (x :: xs) = x +++ String.concat "" xs.
Proof.
  destruct xs; simpl; [|reflexivity].
  induction x as [|c x IH]; simpl; [reflexivity | now rewrite <- IH].
Qed.

Lemma append_assoc (a b c : string) : (a +++ b) +++ c = a +++ (b +++ c).
Proof. induction a as [|x a IH]; simpl; [reflexivity | now rewrite IH]. Qed.

Lemma fold_left_append (f : string -> string) (xs : list string)
  (init : string) :
  fold_left (fun acc x => acc +++ f x) xs init
  = init +++ String.concat "" (map f xs).
Proof.
  revert init. induction xs as [|x xs IH]; intros init.
  - simpl. induction init as [|c i IHi]; simpl; [reflexivity|].
    now rewrite <- IHi.
  - cbn [fold_left map]. rewrite IH, concat_empty_cons.
    apply append_assoc.
Qed.

(** The text built line by line is the text of the property. *)
Lemma ospf_config_of_text config :
  ospf_config_of config = ospf_text (router_id config) (networks config).
Proof.
  unfold ospf_config_of, ospf_text.
  rewrite (fold_left_append
             (fun n => "network " +++ n +++ " area 0.0.0.0" +++ Py.nl)).
  rewrite !append_assoc. reflexivity.
Qed.

Lemma issues_configure_basic_ospf router config g :
  issues env (configure_basic_ospf env router config) g
    [Run (full_cmd_of ["vtysh"; "-c";
                       ospf_text (router_id config) (networks config)]
                      (Some router))].
Proof.
  eapply issues_eq; [unfold configure_basic_ospf; issue|].
  rewrite ospf_config_of_text. reflexivity.
Qed.

Lemma issues_set_link_weight router field WEIGHT g config :
  dict_get router (ROUTERS g) = Some config ->
  issues env (set_link_weight env router field WEIGHT) g
         [weight_command router (field config) (WEIGHT g)].
Proof.
  intros H. unfold set_link_weight.
  eapply issues_evaluated; [apply evaluates_ROUTERS_at, H|].
  eapply issues_evaluated; [apply evaluates_read|].
  apply issues_set_ospf_weight.
Qed.

Ltac link_weight :=
  eapply issues_bind;
  [ eapply issues_set_link_weight; reflexivity | intro ].

Lemma issues_switch_traffic_path from_path to_path :
  issues env (switch_traffic_path env from_path to_path) module_globals
         (switch_traffic_path_issues from_path to_path).
Proof.
  unfold switch_traffic_path, switch_traffic_path_issues, supported.
  eapply issues_eq.
  - eapply issues_bind; [apply issues_print | intro].
    eapply issues_bind; [ | intro; issue ].
    instantiate (1 :=
      if String.eqb from_path "north" && String.eqb to_path "south"
      then _
      else if String.eqb from_path "south" && String.eqb to_path "north"
           then _ else _).
    destruct (String.eqb from_path "north" && String.eqb to_path "south");
      [ | destruct (String.eqb from_path "south"
                    && String.eqb to_path "north") ].
    + eapply issues_bind; [apply issues_print | intro].
      do 4 link_weight.
      eapply issues_bind; [apply issues_print | intro].
      eapply issues_bind; [apply issues_time_sleep | intro].
      eapply issues_bind; [apply issues_print | intro].
      do 3 link_weight.
      eapply issues_set_link_weight; reflexivity.
    + eapply issues_bind; [apply issues_print | intro].
      do 4 link_weight.
      eapply issues_bind; [apply issues_print | intro].
      eapply issues_bind; [apply issues_time_sleep | intro].
      eapply issues_bind; [apply issues_print | intro].
      do 3 link_weight.
      eapply issues_set_link_weight; reflexivity.
    + apply issues_ret.
  - destruct (String.eqb from_path "north") eqn:FN;
      destruct (String.eqb to_path "south") eqn:TS;
      destruct (String.eqb from_path "south") eqn:FS;
      destruct (String.eqb to_path "north") eqn:TN;
      try reflexivity;
      repeat match goal with
             | H : String.eqb _ _ = true |- _ =>
                 apply String.eqb_eq in H; subst
             end;
      try discriminate; reflexivity.
Qed.

Ltac router_at :=
  eapply issues_evaluated;
  [ apply evaluates_ROUTERS_at; reflexivity | cbv beta ].

Ltac one_router :=
  eapply issues_bind; [ | intro ];
  [ eapply issues_bind; [apply issues_configure_basic_ospf | intro];
    cbv beta iota;
    router_at;
    eapply issues_bind; [apply issues_set_ospf_weight | intro];
    router_at;
    apply issues_set_ospf_weight | ].

Lemma issues_configure_ospf path :
  issues env (configure_ospf env path) module_globals
         (configure_ospf_issues path).
Proof.
  unfold configure_ospf, configure_ospf_issues.
  destruct (String.eqb path "north").
  - eapply issues_eq.
    + eapply issues_bind; [apply issues_print | intro].
      eapply issues_evaluated.
      { repeat (eapply evaluates_bind; [apply evaluates_read|]).
        apply evaluates_ret. }
      cbv beta iota.
      eapply issues_evaluated; [apply evaluates_read|].
      eapply issues_bind; [ | intro; issue ].
      cbn [for_each items ROUTERS module_globals module_ROUTERS
           String.eqb Ascii.eqb Bool.eqb].
      do 4 one_router. apply issues_ret.
    + reflexivity.
  - eapply issues_eq.
    + eapply issues_bind; [apply issues_print | intro].
      eapply issues_evaluated.
      { repeat (eapply evaluates_bind; [apply evaluates_read|]).
        apply evaluates_ret. }
      cbv beta iota.
      eapply issues_evaluated; [apply evaluates_read|].
      eapply issues_bind; [ | intro; issue ].
      cbn [for_each items ROUTERS module_globals module_ROUTERS
           String.eqb Ascii.eqb Bool.eqb].
      do 4 one_router. apply issues_ret.
    + reflexivity.
Qed.

Lemma issues_setup_host_routes :
  issues env (setup_host_routes env) module_globals setup_host_routes_issues.
Proof.
  eapply issues_eq.
  - unfold setup_host_routes.
    eapply issues_bind; [apply issues_print | intro].
    eapply issues_evaluated; [apply evaluates_read|].
    cbn [for_each items HOSTS module_globals module_HOSTS]. issue.
  - reflexivity.
Qed.

Lemma issues_show_routing_tables :
  issues env (show_routing_tables env) module_globals
         (show_issues "show ip route ospf").
Proof.
  eapply issues_eq.
  - unfold show_routing_tables.
    eapply issues_evaluated; [apply evaluates_read|].
    apply (issues_for_each _ _ _
             (fun router =>
                [Run (full_cmd_of ["vtysh"; "-c"; "show ip route ospf"]
                                  (Some router))])).
    intro router.
    eapply issues_eq; [issue; apply issues_print_or | reflexivity].
  - reflexivity.
Qed.

Lemma issues_show_ospf_neighbors :
  issues env (show_ospf_neighbors env) module_globals
         (show_issues "show ip ospf neighbor").
Proof.
  eapply issues_eq.
  - unfold show_ospf_neighbors.
    eapply issues_evaluated; [apply evaluates_read|].
    apply (issues_for_each _ _ _
             (fun router =>
                [Run (full_cmd_of ["vtysh"; "-c"; "show ip ospf neighbor"]
                                  (Some router))])).
    intro router.
    eapply issues_eq; [issue; apply issues_print_or | reflexivity].
  - reflexivity.
Qed.

Lemma issues_trace_route g :
  issues env (trace_route env) g
         (in_hosta ["traceroute"; "-n"; "10.0.15.3"]).
Proof.
  eapply issues_eq;
    [unfold trace_route; issue; apply issues_print_or | reflexivity].
Qed.

Lemma issues_ping_test count g :
  issues env (ping_test env count) g
         (in_hosta ["ping"; "-c"; Py.str count; "10.0.15.3"]).
Proof.
  eapply issues_eq;
    [unfold ping_test; issue; apply issues_print_or | reflexivity].
Qed.

Lemma issues_main args argc :
  Args.continuous_ping args = false ->
  issues env (main env args argc) module_globals (main_issues args).
Proof.
  intros Hping. unfold main, main_with, main_issues. rewrite Hping.
  eapply issues_eq.
  - eapply issues_bind;
      [apply issues_when, issues_start_containers | intro].
    eapply issues_bind;
      [apply issues_when, issues_stop_containers | intro].
    eapply issues_bind; [apply issues_when | intro].
    { eapply issues_bind; [apply issues_start_containers | intro].
      eapply issues_evaluated; [apply evaluates_read|].
      eapply issues_bind;
        [apply (issues_for_each _ _ _ install_frr_issues);
         intro; apply issues_install_frr | intro].
      eapply issues_bind; [apply issues_configure_ospf | intro].
      eapply issues_bind; [apply issues_setup_host_routes | intro].
      apply issues_print. }
    eapply issues_bind;
      [apply issues_when, issues_configure_ospf | intro].
    eapply issues_bind;
      [apply issues_when, issues_configure_ospf | intro].
    eapply issues_bind;
      [apply issues_when, issues_switch_traffic_path | intro].
    eapply issues_bind;
      [apply issues_when, issues_switch_traffic_path | intro].
    eapply issues_bind;
      [apply issues_when, issues_show_routing_tables | intro].
    eapply issues_bind;
      [apply issues_when, issues_show_ospf_neighbors | intro].
    eapply issues_bind; [apply issues_when, issues_trace_route | intro].
    eapply issues_bind; [apply issues_when, issues_ping_test | intro].
    eapply issues_bind; [apply issues_ret | intro].
    apply issues_when, issues_print_help.
  - destruct (argc =? 1)%nat; cbn [when app];
      rewrite ?app_nil_r; reflexivity.
Qed.

Lemma issues_perform op :
  reaches_continuous_ping op = false ->
  issues env (perform env op) module_globals (perform_issues op).
Proof.
  intros Hping. destruct op; simpl in *.
  - eapply issues_eq; [issue | reflexivity].
  - apply issues_start_containers.
  - apply issues_stop_containers.
  - apply issues_install_frr.
  - apply issues_configure_ospf.
  - apply issues_configure_basic_ospf.
  - apply issues_set_ospf_weight.
  - apply issues_setup_host_routes.
  - apply issues_switch_traffic_path.
  - apply issues_show_routing_tables.
  - apply issues_show_ospf_neighbors.
  - apply issues_trace_route.
  - apply issues_ping_test.
  - discriminate.
  - now apply issues_main.
Qed.

End Logic.

(** ** The rules of [confined] *)

Lemma logged_nil st : logged [] st = st.
Proof. destruct st; unfold logged; simpl. now rewrite app_nil_r. Qed.

Lemma logged_cons e evs st : logged (e :: evs) st = logged evs (emit e st).
Proof.
  unfold logged, emit; simpl. now rewrite <- app_assoc.
Qed.

Section Confined.

Variable env : environment.
Variable R : state -> state -> Prop.
Variable E : exn -> Prop.

Hypothesis R_refl : forall st, R st st.
Hypothesis R_trans : forall st1 st2 st3, R st1 st2 -> R st2 st3 -> R st1 st3.
Hypothesis R_emit : forall e st, foreground e = true -> R st (emit e st).
Hypothesis E_run : forall c e, failure_of c = Some e -> E e.
Hypothesis E_key : forall key, E (KeyError key).

Lemma R_logged evs st : forallb foreground evs = true -> R st (logged evs st).
Proof.
  revert st. induction evs as [|e evs IH]; intros st H.
  - rewrite logged_nil. apply R_refl.
  - simpl in H. apply andb_prop in H as [He Hevs].
    rewrite logged_cons. eapply R_trans; [apply R_emit, He | apply IH, Hevs].
Qed.

Lemma confined_ret {A : Type} (a : A) : confined R E (ret a).
Proof. intros st. split; [apply R_refl | discriminate]. Qed.

Lemma confined_bind {A B : Type} (m : M A) (k : A -> M B) :
  confined R E m -> (forall a, confined R E (k a)) ->
  confined R E (bind m k).
Proof.
  intros Hm Hk st. destruct (Hm st) as [R1 E1].
  unfold bind. destruct (m st) as [[a|e] st1]; simpl in *.
  - destruct (Hk a st1) as [R2 E2]. split; [|exact E2].
    eapply R_trans; eauto.
  - split; [exact R1|]. intros e' [= <-]. now apply E1.
Qed.

Lemma confined_emit {A : Type} (e : event) (a : A) :
  foreground e = true -> confined R E (fun st => (Returns a, emit e st)).
Proof. intros H st. split; [apply R_emit, H | discriminate]. Qed.

Lemma confined_print line : confined R E (print line).
Proof. now apply confined_emit. Qed.

Lemma confined_time_sleep n : confined R E (time_sleep n).
Proof. now apply confined_emit. Qed.

Lemma confined_print_help : confined R E print_help.
Proof. now apply confined_emit. Qed.

Lemma confined_read {A : Type} (name : Globals -> A) :
  confined R E (read name).
Proof. intros st. split; [apply R_refl | discriminate]. Qed.

Lemma confined_getitem {V : Type} (d : dict V) key :
  confined R E (getitem d key).
Proof.
  unfold getitem. destruct (dict_get key d); [apply confined_ret|].
  intros st. split; [apply R_refl|]. simpl. intros e [= <-]. apply E_key.
Qed.

Lemma confined_for_each {A : Type} (xs : list A) (body : A -> M unit) :
  (forall x, confined R E (body x)) -> confined R E (for_each xs body).
Proof.
  intros H. induction xs as [|x xs IH]; simpl.
  - apply confined_ret.
  - apply confined_bind; auto.
Qed.

Lemma confined_when flag (m : M unit) :
  (flag = true -> confined R E m) -> confined R E (when flag m).
Proof. destruct flag; simpl; auto using confined_ret. Qed.

Lemma confined_run_command cmd container :
  confined R E (run_command env cmd container).
Proof.
  intros st.
  destruct (run_command_outcome env cmd container st)
    as [(rc & out & err & H)|[e H]].
  - rewrite (run_command_completed _ _ _ _ _ _ _ H).
    destruct (rc =? 0)%Z; simpl; (split; [now apply R_logged | discriminate]).
  - rewrite (run_command_failed _ _ _ _ _ H). simpl.
    split; [now apply R_logged | intros e' [= <-]; exact (E_run _ _ H)].
Qed.

Ltac confine :=
  repeat first
    [ apply confined_ret
    | apply confined_print
    | apply confined_time_sleep
    | apply confined_print_help
    | apply confined_read
    | apply confined_getitem
    | apply confined_run_command
    | apply confined_bind; [ | intro ]
    | apply confined_for_each; intro
    | match goal with
      | |- confined _ _ (if ?b then _ else _) => destruct b
      | |- confined _ _ (match ?o with Some _ => _ | None => _ end) =>
          destruct o
      | |- confined _ _ (let '(_, _) := ?p in _) => destruct p
      end ].

Lemma confined_start_containers : confined R E (start_containers env).
Proof. unfold start_containers. confine. Qed.

Lemma confined_stop_containers : confined R E (stop_containers env).
Proof. unfold stop_containers. confine. Qed.

Lemma confined_install_frr container :
  confined R E (install_frr env container).
Proof. unfold install_frr. confine. Qed.

Lemma confined_configure_basic_ospf router config :
  confined R E (configure_basic_ospf env router config).
Proof. unfold configure_basic_ospf. confine. Qed.

Lemma confined_set_ospf_weight router interface weight :
  confined R E (set_ospf_weight env router interface weight).
Proof. unfold set_ospf_weight. confine. Qed.

Lemma confined_configure_ospf path : confined R E (configure_ospf env path).
Proof.
  unfold configure_ospf, configure_basic_ospf, set_ospf_weight, ROUTERS_at.
  confine.
Qed.

Lemma confined_setup_host_routes : confined R E (setup_host_routes env).
Proof. unfold setup_host_routes. confine. Qed.

Lemma confined_switch_traffic_path from_path to_path :
  confined R E (switch_traffic_path env from_path to_path).
Proof.
  unfold switch_traffic_path, set_link_weight, set_ospf_weight, ROUTERS_at.
  confine.
Qed.

Lemma confined_print_or output fallback :
  confined R E (print_or output fallback).
Proof. unfold print_or. confine. Qed.

Lemma confined_show_routing_tables : confined R E (show_routing_tables env).
Proof. unfold show_routing_tables. confine. apply confined_print_or. Qed.

Lemma confined_show_ospf_neighbors : confined R E (show_ospf_neighbors env).
Proof. unfold show_ospf_neighbors. confine. apply confined_print_or. Qed.

Lemma confined_trace_route : confined R E (trace_route env).
Proof. unfold trace_route. confine. apply confined_print_or. Qed.

Lemma confined_ping_test count : confined R E (ping_test env count).
Proof. unfold ping_test. confine. apply confined_print_or. Qed.

Lemma confined_main args argc :
  (Args.continuous_ping args = true -> confined R E (continuous_ping env)) ->
  confined R E (main env args argc).
Proof.
  intros Hping. unfold main, main_with.
  apply confined_bind;
    [apply confined_when; intros _; apply confined_start_containers | intro].
  apply confined_bind;
    [apply confined_when; intros _; apply confined_stop_containers | intro].
  apply confined_bind; [apply confined_when; intros _ | intro].
  { apply confined_bind; [apply confined_start_containers | intro].
    apply confined_bind; [apply confined_read | intro].
    apply confined_bind;
      [apply confined_for_each; intro; apply confined_install_frr | intro].
    apply confined_bind; [apply confined_configure_ospf | intro].
    apply confined_bind; [apply confined_setup_host_routes | intro].
    apply confined_print. }
  do 2 (apply confined_bind;
    [apply confined_when; intros _; apply confined_configure_ospf | intro]).
  do 2 (apply confined_bind;
    [apply confined_when; intros _; apply confined_switch_traffic_path
    | intro]).
  apply confined_bind;
    [apply confined_when; intros _; apply confined_show_routing_tables
    | intro].
  apply confined_bind;
    [apply confined_when; intros _; apply confined_show_ospf_neighbors
    | intro].
  apply confined_bind;
    [apply confined_when; intros _; apply confined_trace_route | intro].
  apply confined_bind;
    [apply confined_when; intros _; apply confined_ping_test | intro].
  apply confined_bind; [apply confined_when, Hping | intro].
  apply confined_when. intros _. apply confined_print_help.
Qed.

Lemma confined_perform op :
  (reaches_continuous_ping op = true ->
   confined R E (continuous_ping env)) ->
  confined R E (perform env op).
Proof.
  intros Hping. destruct op; simpl in *.
  - confine.
  - apply confined_start_containers.
  - apply confined_stop_containers.
  - apply confined_install_frr.
  - apply confined_configure_ospf.
  - apply confined_configure_basic_ospf.
  - apply confined_set_ospf_weight.
  - apply confined_setup_host_routes.
  - apply confined_switch_traffic_path.
  - apply confined_show_routing_tables.
  - apply confined_show_ospf_neighbors.
  - apply confined_trace_route.
  - apply confined_ping_test.
  - now apply Hping.
  - now apply confined_main.
Qed.

End Confined.

(** ** [continuous_ping] *)

Lemma iterate_stdout_until_interrupt child lines rest st :
  sigint st = signal_handler child ->
  iterate_stdout (map Line lines ++ Interrupt :: rest)
                 (fun line => print (Py.strip line)) st
  = (Raises (SystemExit 0),
     logged (print_lines lines ++
             [Print (Py.nl +++ "Stopping ping..."); Terminate child]) st).
Proof.
  revert st. induction lines as [|line lines IH]; intros st H.
  - simpl. unfold bind, deliver_SIGINT. rewrite H. simpl.
    unfold logged, emit; simpl. now rewrite <- app_assoc.
  - cbn [map app iterate_stdout print_lines]. unfold bind at 1, print at 1.
    rewrite IH by exact H. now rewrite logged_cons.
Qed.

Lemma iterate_stdout_until_end lines st :
  iterate_stdout (map Line lines) (fun line => print (Py.strip line)) st
  = (Returns tt, logged (print_lines lines) st).
Proof.
  revert st. induction lines as [|line lines IH]; intros st.
  - simpl. now rewrite logged_nil.
  - cbn [map iterate_stdout print_lines]. unfold bind at 1, print at 1.
    rewrite IH. now rewrite logged_cons.
Qed.

Lemma continuous_ping_spawned env st child items :
  os_popen env (before_spawn st) ping_argv
  = Spawned child items ->
  continuous_ping env st =
  try_except
    (iterate_stdout items (fun line => print (Py.strip line)))
    (fun e =>
       match e with
       | KeyboardInterrupt =>
           Some (print (Py.nl +++ "Stopping ping...") ;; terminate child)
       | _ => None
       end) (pinging child [] st).
Proof.
  intros H. unfold continuous_ping, bind, print, subprocess_Popen.
  cbn [emit log]. rewrite <- app_assoc. unfold ping_argv, before_spawn in H. rewrite H.
  unfold signal_signal, pinging. cbn. rewrite <- !app_assoc. reflexivity.
Qed.

Lemma continuous_ping_interrupted env st child lines rest :
  os_popen env (before_spawn st) ping_argv
  = Spawned child (map Line lines ++ Interrupt :: rest) ->
  continuous_ping env st =
  (Raises (SystemExit 0),
   pinging child
     (print_lines lines ++
      [Print (Py.nl +++ "Stopping ping..."); Terminate child]) st).
Proof.
  intros H. rewrite (continuous_ping_spawned _ _ _ _ H).
  unfold try_except.
  rewrite (iterate_stdout_until_interrupt child) by reflexivity.
  unfold logged, pinging; cbn. rewrite <- !app_assoc. reflexivity.
Qed.

Lemma continuous_ping_ended env st child lines :
  os_popen env (before_spawn st) ping_argv
  = Spawned child (map Line lines) ->
  continuous_ping env st =
  (Returns tt, pinging child (print_lines lines) st).
Proof.
  intros H. rewrite (continuous_ping_spawned _ _ _ _ H).
  unfold try_except. rewrite iterate_stdout_until_end.
  unfold logged, pinging; cbn. rewrite <- !app_assoc. reflexivity.
Qed.

Lemma same_globals_iterate_stdout items st :
  globals (snd (iterate_stdout items
                  (fun line => print (Py.strip line)) st)) = globals st.
Proof.
  revert st. induction items as [|[text|] items IH]; intros st.
  - reflexivity.
  - cbn [iterate_stdout]. unfold bind at 1, print at 1. now rewrite IH.
  - cbn [iterate_stdout]. unfold bind at 1, deliver_SIGINT.
    destruct (sigint st); reflexivity.
Qed.

Lemma same_globals_continuous_ping env :
  confined same_globals (fun _ => True) (continuous_ping env).
Proof.
  intros st. split; [|trivial]. unfold same_globals.
  destruct (os_popen env (before_spawn st) ping_argv)
    as [child items|oe] eqn:H.
  - rewrite (continuous_ping_spawned _ _ _ _ H). unfold try_except.
    pose proof (same_globals_iterate_stdout items (pinging child [] st)) as G.
    destruct (iterate_stdout items _ _) as [[a|e] st1]; simpl in *;
      [exact G|].
    destruct e; simpl; exact G.
  - unfold continuous_ping, bind, print, subprocess_Popen.
    cbn [emit log]. rewrite <- app_assoc. unfold ping_argv, before_spawn in H. rewrite H.
    reflexivity.
Qed.

(** ** [strip] *)

Lemma lstrip_spec s :
  exists l, s = l +++ Py.lstrip s /\ Py.all_space l = true /\
            Py.not_space (Py.first_char (Py.lstrip s)).
Proof.
  induction s as [|c s (l & E & A & N)].
  - exists EmptyString. simpl. auto.
  - simpl. destruct (Py.isspace c) eqn:C.
    + exists (String c l). simpl. rewrite C, A. rewrite <- E. auto.
    + exists EmptyString. simpl. auto.
Qed.

Lemma rstrip_spec s :
  exists r, s = Py.rstrip s +++ r /\ Py.all_space r = true /\
            Py.not_space (Py.last_char (Py.rstrip s)) /\
            Py.first_char (Py.rstrip s) =
              match Py.rstrip s with
              | EmptyString => None
              | String _ _ => Py.first_char s
              end.
Proof.
  induction s as [|c s (r & E & A & N & F)].
  - exists EmptyString. simpl. auto.
  - simpl. destruct (Py.rstrip s) as [|d kept] eqn:K.
    + destruct (Py.isspace c) eqn:C.
      * exists (String c r). simpl in *. rewrite C, A, <- E. auto.
      * exists r. simpl in *. subst r. auto.
    + exists r. simpl in *. rewrite <- E. repeat split; auto.
Qed.

Lemma strip_spec s : stripped s (Py.strip s).
Proof.
  unfold Py.strip.
  destruct (lstrip_spec s) as (l & El & Al & Nl).
  destruct (rstrip_spec (Py.lstrip s)) as (r & Er & Ar & Nr & Fr).
  exists l, r. repeat split; auto.
  - now rewrite <- Er.
  - rewrite Fr. destruct (Py.rstrip (Py.lstrip s)); simpl; auto.
Qed.

(* ================================================================== *)
(** * The properties of the specification *)

Lemma all_start_all_succeed : all_start all_succeed.
Proof. intros history argv. now exists 0%Z, EmptyString, EmptyString. Qed.

Lemma issued_logged {A : Type} (m : M A) st evs r :
  m st = (r, logged evs st) -> issued m st = commands_of evs.
Proof.
  intros H. unfold issued. rewrite H. simpl. now rewrite skipn_length_app.
Qed.

(** The names of the link interfaces, read off the [interfaces] tables. *)
Example link_names :
  link_name "r1" "r2" = "eth1" /\ link_name "r2" "r1" = "eth0" /\
  link_name "r2" "r3" = "eth1" /\ link_name "r3" "r2" = "eth0" /\
  link_name "r1" "r4" = "eth2" /\ link_name "r4" "r1" = "eth0" /\
  link_name "r3" "r4" = "eth1" /\ link_name "r4" "r3" = "eth1".
Proof. repeat split; reflexivity. Qed.

(** The two kinds of command, written out for one router. *)
Example on_link_r1_r2 :
  on_link "r1" "r2" 10 =
    Run [ "docker"; "exec"; "r1"; "vtysh"; "-c"; "configure terminal";
          "-c"; "interface eth1"; "-c"; "ip ospf cost 10"; "-c"; "exit";
          "-c"; "end"; "-c"; "write memory" ].
Proof. reflexivity. Qed.

Example basic_command_r2 :
  basic_command "r2" "192.168.1.2" ["10.0.10.0/24"; "10.0.11.0/24"] =
    Run [ "docker"; "exec"; "r2"; "vtysh"; "-c";
          Py.nl +++ "    configure terminal" +++
          Py.nl +++ "    router ospf" +++
          Py.nl +++ "    ospf router-id 192.168.1.2" +++
          Py.nl +++ "    network 10.0.10.0/24 area 0.0.0.0" +++
          Py.nl +++ "network 10.0.11.0/24 area 0.0.0.0" +++
          Py.nl +++ "exit" +++ Py.nl +++ "end" +++ Py.nl +++ "write memory" ].
Proof. reflexivity. Qed.

(** After a query the caller prints the output, or a fixed line when there
    is none: the one use callers make of what [run_command] returns. *)
Example trace_route_when_it_fails :
  skipn 5 (log (snd (trace_route all_fail initial_state)))
  = [Print "Traceroute failed"].
Proof. reflexivity. Qed.

Example strip_example :
  Py.strip ("  4242 " +++ Py.nl) = "4242".
Proof. reflexivity. Qed.

(** The container argument is an empty string: the command runs on the
    local host. *)
Lemma run_command_empty_container_name env cmd st :
  issued (run_command env cmd (Some EmptyString)) st = [Run cmd].
Proof.
  destruct (run_command_outcome env cmd (Some EmptyString) st)
    as [(rc & out & err & H)|[e H]].
  - pose proof (run_command_completed _ _ _ _ _ _ _ H) as E.
    destruct (rc =? 0)%Z; now rewrite (issued_logged _ _ _ _ E).
  - pose proof (run_command_failed _ _ _ _ _ H) as E.
    now rewrite (issued_logged _ _ _ _ E).
Qed.

(** C2. Started with the globals of the module, [configure_ospf path]
    gives each router its basic configuration (its router-id, each of its
    networks in area 0.0.0.0) and then sets the costs of its two links:
    with [path] equal to north the ends of the links R1-R2 and R2-R3 get the
    cost 10 and the ends of R1-R4 and R3-R4 the cost 100, with any other
    [path] the reverse; it then waits 5 seconds. *)
Theorem configure_ospf_sets_costs :
  forall (env : environment) (path : string) (st : state),
    all_start env ->
    globals st = module_globals ->
    fst (configure_ospf env path st) = Returns tt /\
    issued (configure_ospf env path) st =
      if String.eqb path "north"
      then configure_ospf_script (DEFAULT_WEIGHT module_globals)
                                 (HIGH_WEIGHT module_globals)
      else configure_ospf_script (HIGH_WEIGHT module_globals)
                                 (DEFAULT_WEIGHT module_globals).
Proof.
  intros env path st Hall Hg.
  destruct (issues_returns _ _ _ _ st (issues_configure_ospf env path)
              Hg Hall) as [[[] R] I].
  split; [exact R | exact I].
Qed.

Lemma configure_ospf_sets_costs_witness :
  fst (configure_ospf all_fail "south" initial_state) = Returns tt /\
  issued (configure_ospf all_fail "south") initial_state =
    configure_ospf_script 100 10.
Proof.
  apply (configure_ospf_sets_costs all_fail "south" initial_state).
  - intros history argv. now exists 1%Z, EmptyString, "failed".
  - reflexivity.
Defined.

Lemma starts_with {A : Type} (first tail before after rest : list A)
  (c : A) :
  (before ++ c :: after) ++ rest = first ++ tail ->
  ~ In c first ->
  exists more, before = first ++ more.
Proof.
  revert before. induction first as [|x first IH]; intros before P Hc.
  - now exists before.
  - destruct before as [|b before]; simpl in P; injection P as -> P.
    + exfalso. apply Hc. now left.
    + destruct (IH before P) as [more ->].
      * intros H. apply Hc. now right.
      * now exists more.
Qed.

Lemma supported_pairs from_path to_path :
  supported from_path to_path = true ->
  (from_path = "north" /\ to_path = "south") \/
  (from_path = "south" /\ to_path = "north").
Proof.
  unfold supported. intros H.
  apply orb_prop in H as [H|H]; apply andb_prop in H as [F T];
    apply String.eqb_eq in F, T; auto.
Qed.

Lemma raising_is_not_lowering from_path to_path c :
  supported from_path to_path = true ->
  In c (set_path_cost from_path 100) ->
  ~ In c (set_path_cost to_path 10 ++ [Sleep 5]).
Proof.
  intros S Hc Hin.
  destruct (supported_pairs _ _ S) as [[-> ->]|[-> ->]];
    vm_compute in Hc, Hin;
    repeat (destruct Hc as [Hc|Hc]; [subst c|]); try contradiction;
    repeat (destruct Hin as [Hin|Hin]; [discriminate Hin|]);
    contradiction.
Qed.

(** C3. For the two supported pairs, started with the globals of the
    module: what [switch_traffic_path] issues is an initial segment of
    "the four commands that lower the cost of the destination path to 10, a
    wait of 5 seconds, the four commands that raise the cost of the origin
    path to 100, a wait of 5 seconds", and all of it when every process
    starts; so any command that raises a cost of the origin path comes
    after all four lowering commands and the wait. *)
Theorem switch_lowers_before_it_raises :
  forall (env : environment) (from_path to_path : string) (st : state),
    globals st = module_globals ->
    supported from_path to_path = true ->
    let lowering := set_path_cost to_path (DEFAULT_WEIGHT module_globals) in
    let raising := set_path_cost from_path (HIGH_WEIGHT module_globals) in
    let run := issued (switch_traffic_path env from_path to_path) st in
    prefix run (lowering ++ [Sleep 5] ++ raising ++ [Sleep 5])
    /\ (all_start env ->
        fst (switch_traffic_path env from_path to_path st) = Returns tt /\
        run = lowering ++ [Sleep 5] ++ raising ++ [Sleep 5])
    /\ (forall before c after,
        run = before ++ c :: after ->
        In c raising ->
        exists more, before = lowering ++ Sleep 5 :: more).
Proof.
  intros env from_path to_path st Hg S lowering raising run.
  pose proof (issues_switch_traffic_path env from_path to_path) as I.
  assert (Script : switch_traffic_path_issues from_path to_path
                   = lowering ++ [Sleep 5] ++ raising ++ [Sleep 5]).
  { unfold switch_traffic_path_issues. rewrite S.
    rewrite <- !app_assoc. reflexivity. }
  rewrite Script in I.
  assert (P : prefix run (lowering ++ [Sleep 5] ++ raising ++ [Sleep 5]))
    by exact (issues_prefix _ _ _ _ st I Hg).
  split; [exact P|]. split.
  - intros Hall.
    destruct (issues_returns _ _ _ _ st I Hg Hall) as [[[] R] E].
    split; [exact R | exact E].
  - intros before c after Hrun Hc.
    destruct P as [rest P]. rewrite Hrun in P.
    rewrite (app_assoc lowering) in P. symmetry in P.
    destruct (starts_with _ _ _ _ _ _ P) as [more ->].
    + now apply raising_is_not_lowering with (from_path := from_path).
    + exists more. now rewrite <- app_assoc.
Qed.

Lemma switch_lowers_before_it_raises_witness :
  prefix (issued (switch_traffic_path no_docker "north" "south")
                 initial_state)
         (set_path_cost "south" 10 ++ [Sleep 5] ++
          set_path_cost "north" 100 ++ [Sleep 5])
  /\ issued (switch_traffic_path all_fail "south" "north") initial_state
     = set_path_cost "north" 10 ++ [Sleep 5] ++
       set_path_cost "south" 100 ++ [Sleep 5].
Proof.
  split.
  - apply (switch_lowers_before_it_raises
             no_docker "north" "south" initial_state);
      reflexivity.
  - apply (switch_lowers_before_it_raises
             all_fail "south" "north" initial_state);
      [reflexivity | reflexivity |].
    intros history argv. now exists 1%Z, EmptyString, "failed".
Defined.

(** C4. [run_command] returns [None] exactly when [subprocess.run] raises
    [CalledProcessError], which it does exactly when the process ran to its
    end with a nonzero exit status and wrote text.  Every other exception of
    [subprocess.run] leaves [run_command] as it is, with nothing printed and
    nothing returned: the error of a process that could not be started, the
    [UnicodeDecodeError] of a process whose output is not text (whatever its
    exit status), the [IndexError] of an empty argument vector. *)
Theorem run_command_none_iff_nonzero_exit :
  forall (env : environment) (cmd : list string)
         (container : option string) (st : state),
    let argv := full_cmd_of cmd container in
    (fst (run_command env cmd container st) = Returns None <->
     exists rc out err,
       fst (subprocess_run env argv st)
         = Raises (CalledProcessError rc argv out err))
    /\ ((exists rc out err,
           fst (subprocess_run env argv st)
             = Raises (CalledProcessError rc argv out err)) <->
        exists rc out err,
          os_run env (log st) argv = Completed rc out err /\ rc <> 0%Z)
    /\ (forall e,
        fst (subprocess_run env argv st) = Raises e ->
        (forall rc c out err, e <> CalledProcessError rc c out err) ->
        run_command env cmd container st = (Raises e, logged [Run argv] st))
    /\ (forall e,
        failure_of (os_run env (log st) argv) = Some e ->
        run_command env cmd container st = (Raises e, logged [Run argv] st)).
Proof.
  intros env cmd container st argv. subst argv.
  assert (CPE : (exists rc out err,
                    fst (subprocess_run env (full_cmd_of cmd container) st)
                    = Raises (CalledProcessError rc
                                (full_cmd_of cmd container) out err)) <->
                exists rc out err,
                  os_run env (log st) (full_cmd_of cmd container)
                    = Completed rc out err /\ rc <> 0%Z).
  { unfold subprocess_run. split.
    - intros (rc & out & err & H).
      destruct (os_run env (log st) (full_cmd_of cmd container))
        as [rc' out' err'|oe|rc'|]; try discriminate H.
      exists rc', out', err'. split; [reflexivity|].
      intros ->. discriminate H.
    - intros (rc & out & err & -> & Hrc).
      apply Z.eqb_neq in Hrc. rewrite Hrc. now exists rc, out, err. }
  split; [|split; [exact CPE|split]].
  - rewrite CPE. split.
    + intros H.
      destruct (run_command_outcome env cmd container st)
        as [(rc & out & err & O)|[e O]].
      * exists rc, out, err. split; [exact O|].
        rewrite (run_command_completed _ _ _ _ _ _ _ O) in H.
        intros ->. discriminate H.
      * rewrite (run_command_failed _ _ _ _ _ O) in H. discriminate H.
    + intros (rc & out & err & O & Hrc).
      rewrite (run_command_completed _ _ _ _ _ _ _ O).
      apply Z.eqb_neq in Hrc. now rewrite Hrc.
  - intros e H Hother. apply run_command_failed.
    unfold subprocess_run in H.
    destruct (os_run env (log st) (full_cmd_of cmd container))
      as [rc out err|oe|rc|]; simpl in *;
      try (now injection H as <-).
    destruct (rc =? 0)%Z; [discriminate H|].
    injection H as <-.
    now destruct (Hother rc (full_cmd_of cmd container) out err).
  - intros e H. now apply run_command_failed.
Qed.

Lemma run_command_none_iff_nonzero_exit_witness :
  run_command no_docker ["apt-get"; "update"] (Some "r1") initial_state =
    (Raises (OSError (FileNotFoundError "docker")),
     logged [Run ["docker"; "exec"; "r1"; "apt-get"; "update"]]
            initial_state)
  /\ run_command undecodable_failure ["apt-get"; "update"] (Some "r1")
                 initial_state =
     (Raises UnicodeDecodeError,
      logged [Run ["docker"; "exec"; "r1"; "apt-get"; "update"]]
             initial_state)
  /\ fst (run_command all_fail ["apt-get"; "update"] (Some "r1")
                      initial_state) = Returns None.
Proof.
  split; [|split].
  - apply (proj2 (proj2 (proj2 (run_command_none_iff_nonzero_exit
                    no_docker ["apt-get"; "update"] (Some "r1")
                    initial_state)))).
    reflexivity.
  - apply (proj1 (proj2 (proj2 (run_command_none_iff_nonzero_exit
                    undecodable_failure ["apt-get"; "update"] (Some "r1")
                    initial_state)))).
    + reflexivity.
    + discriminate.
  - apply (proj1 (run_command_none_iff_nonzero_exit
                    all_fail ["apt-get"; "update"] (Some "r1")
                    initial_state)).
    exists 1%Z, EmptyString, "failed". reflexivity.
Defined.

(** Stated with the exit status alone, the equivalence fails: a process
    that exits with status 1 and writes bytes that are not text started and
    ended with a nonzero status, and [run_command] does not return
    [None]. *)
Lemma none_iff_nonzero_exit_fails_on_undecodable_output :
  ~ (forall (env : environment) (cmd : list string)
            (container : option string) (st : state),
        fst (run_command env cmd container st) = Returns None <->
        exited_nonzero (os_run env (log st) (full_cmd_of cmd container))).
Proof.
  intros H.
  specialize (H undecodable_failure ["apt-get"; "update"] (Some "r1")
                initial_state).
  assert (N : fst (run_command undecodable_failure ["apt-get"; "update"]
                     (Some "r1") initial_state) = Returns None)
    by (apply H; simpl; discriminate).
  discriminate N.
Qed.



Lemma bind_pointwise {A B : Type} (m m' : M A) (k k' : A -> M B) st :
  (forall s, m s = m' s) -> (forall a s, k a s = k' a s) ->
  bind m k st = bind m' k' st.
Proof.
  intros Hm Hk. unfold bind. rewrite Hm.
  destruct (m' st) as [[a|e] s]; [apply Hk | reflexivity].
Qed.

Lemma when_pointwise flag (m m' : M unit) st :
  (forall s, m s = m' s) -> when flag m st = when flag m' st.
Proof. intros H. destruct flag; simpl; [apply H | reflexivity]. Qed.

(** C6. For a pair of paths that is neither north to south nor south to
    north, [switch_traffic_path] runs no command: it prints that it
    switches, waits 5 seconds and prints that traffic was switched to
    [to_path].  And [main] calls it on the two supported pairs only: with
    any function in its place that does the same on those two pairs, [main]
    is the same. *)
Theorem unsupported_switch_only_waits :
  forall (env : environment),
    (forall from_path to_path st,
        supported from_path to_path = false ->
        switch_traffic_path env from_path to_path st =
          (Returns tt,
           logged [ Print ("Switching traffic from " +++ from_path +++
                           " path to " +++ to_path +++ " path...");
                    Print "Waiting for full OSPF convergence...";
                    Sleep 5;
                    Print ("Traffic switched to " +++ to_path +++ " path") ]
                  st))
    /\ (forall (switch : string -> string -> M unit) args argc st,
        (forall s, switch "south" "north" s
                   = switch_traffic_path env "south" "north" s) ->
        (forall s, switch "north" "south" s
                   = switch_traffic_path env "north" "south" s) ->
        main_with env switch args argc st = main env args argc st).
Proof.
  intros env. split.
  - intros from_path to_path st S. unfold supported in S.
    apply orb_false_elim in S as [S1 S2].
    unfold switch_traffic_path. rewrite S1, S2.
    unfold bind, print, time_sleep, ret, logged, emit; simpl.
    now rewrite <- !app_assoc.
  - intros switch args argc st SN NS. unfold main, main_with.
    do 5 (apply bind_pointwise; [reflexivity | intros _ ?]).
    apply bind_pointwise; [intro; now apply when_pointwise | intros _ ?].
    apply bind_pointwise; [intro; now apply when_pointwise | intros _ ?].
    reflexivity.
Qed.

Lemma unsupported_switch_only_waits_witness :
  switch_traffic_path all_succeed "north" "north" initial_state =
    (Returns tt,
     logged [ Print "Switching traffic from north path to north path...";
              Print "Waiting for full OSPF convergence...";
              Sleep 5;
              Print "Traffic switched to north path" ] initial_state)
  /\ main_with all_succeed
       (fun from_path to_path =>
          if supported from_path to_path
          then switch_traffic_path all_succeed from_path to_path
          else raise (KeyError "unsupported"))
       setup_switch_ping 4 initial_state
     = main all_succeed setup_switch_ping 4 initial_state.
Proof.
  split.
  - apply (proj1 (unsupported_switch_only_waits all_succeed)). reflexivity.
  - apply (proj2 (unsupported_switch_only_waits all_succeed));
      reflexivity.
Defined.

Lemma issued_run_command env cmd container st :
  issued (run_command env cmd container) st
  = [Run (full_cmd_of cmd container)].
Proof.
  destruct (run_command_outcome env cmd container st)
    as [(rc & out & err & H)|[e H]].
  - pose proof (run_command_completed _ _ _ _ _ _ _ H) as E.
    destruct (rc =? 0)%Z; now rewrite (issued_logged _ _ _ _ E).
  - pose proof (run_command_failed _ _ _ _ _ H) as E.
    now rewrite (issued_logged _ _ _ _ E).
Qed.

Lemma issued_bind_ret {A : Type} (m : M A) st :
  issued (m ;; ret tt) st = issued m st.
Proof.
  unfold issued, bind. now destruct (m st) as [[a|e] s].
Qed.

(** C7. Whatever the router, the interface and the weight, and however the
    process ends, [set_ospf_weight] runs one process and no other command:
    [docker exec router vtysh] with the six [-c] arguments "configure
    terminal", "interface i", "ip ospf cost w", "exit", "end", "write
    memory", in this order. *)
Theorem set_ospf_weight_one_vtysh_call :
  forall (env : environment) (router interface : string) (weight : Z)
         (st : state),
    issued (set_ospf_weight env router interface weight) st =
      [ Run [ "docker"; "exec"; router; "vtysh";
              "-c"; "configure terminal";
              "-c"; "interface " +++ interface;
              "-c"; "ip ospf cost " +++ Py.str weight;
              "-c"; "exit";
              "-c"; "end";
              "-c"; "write memory" ] ].
Proof.
  intros env router interface weight st.
  unfold set_ospf_weight. rewrite issued_bind_ret.
  apply issued_run_command.
Qed.

(** C8. [run_command] hands [cmd] as it is to [subprocess.run] when the
    container is [None], and [docker exec container] followed by [cmd] when
    a container name, a string that is not empty, is given; it runs no other
    process. *)
Theorem run_command_local_or_in_container :
  forall (env : environment) (cmd : list string) (st : state),
    issued (run_command env cmd None) st = [Run cmd]
    /\ forall (c : ascii) (name : string),
        issued (run_command env cmd (Some (String c name))) st
        = [Run (["docker"; "exec"; String c name] ++ cmd)].
Proof.
  intros env cmd st. split; [|intros c name]; apply issued_run_command.
Qed.

(** C9. No operation changes [ROUTERS], [HOSTS], [DEFAULT_WEIGHT] or
    [HIGH_WEIGHT]: whatever the environment, the state and the values of
    the globals at the start, every function of the script, [main] with any
    command line among them, ends with the globals it started with. *)
Theorem globals_are_never_changed :
  forall (env : environment) (op : operation) (st : state),
    globals (snd (perform env op st)) = globals st.
Proof.
  intros env op st.
  apply (confined_perform env same_globals (fun _ => True)); unfold same_globals.
  - reflexivity.
  - intros st1 st2 st3 H1 H2. now rewrite H2.
  - reflexivity.
  - trivial.
  - trivial.
  - intros _. apply same_globals_continuous_ping.
Qed.

Lemma stays_in_foreground_refl st : stays_in_foreground st st.
Proof.
  split; [reflexivity|]. exists []. now rewrite app_nil_r.
Qed.

Lemma stays_in_foreground_trans st1 st2 st3 :
  stays_in_foreground st1 st2 -> stays_in_foreground st2 st3 ->
  stays_in_foreground st1 st3.
Proof.
  intros [S1 (evs1 & L1 & F1)] [S2 (evs2 & L2 & F2)]. split.
  - now rewrite S2.
  - exists (evs1 ++ evs2). split.
    + now rewrite L2, L1, app_assoc.
    + rewrite forallb_app. now rewrite F1, F2.
Qed.

Lemma stays_in_foreground_emit e st :
  foreground e = true -> stays_in_foreground st (emit e st).
Proof.
  intros H. split; [reflexivity|]. exists [e]. simpl. now rewrite H.
Qed.

(** What the child prints is lines up to the end of its output, or lines up
    to the first SIGINT. *)
Lemma stdout_items_cases (items : list pipe_item) :
  (exists lines, items = map Line lines) \/
  (exists lines rest, items = map Line lines ++ Interrupt :: rest).
Proof.
  induction items as [|[text|] items IH].
  - left. now exists [].
  - destruct IH as [[lines ->]|(lines & rest & ->)].
    + left. now exists (text :: lines).
    + right. now exists (text :: lines), rest.
  - right. now exists [], items.
Qed.

(** C10. Only [continuous_ping] has a child in the background: every
    operation that does not reach it logs prints, runs to the end, waits and
    the help text only, leaves the handler of SIGINT as it is and raises at
    most the error of a process that did not start or of a missing key.
    [continuous_ping] spawns [docker exec hosta ping 10.0.15.3] and installs
    its handler for SIGINT; when SIGINT arrives while it prints the lines of
    the child, the handler prints that it stops the ping, terminates that
    child and raises [SystemExit(0)], which also ends [main]. *)
Theorem only_continuous_ping_is_in_background :
  forall (env : environment) (st : state),
    (forall op,
        reaches_continuous_ping op = false ->
        stays_in_foreground st (snd (perform env op st)) /\
        forall e, fst (perform env op st) = Raises e -> plain_error e)
    /\ (forall child lines rest,
        os_popen env (before_spawn st) ping_argv
          = Spawned child (map Line lines ++ Interrupt :: rest) ->
        continuous_ping env st =
          (Raises (SystemExit 0),
           pinging child
             (print_lines lines ++
              [Print (Py.nl +++ "Stopping ping..."); Terminate child]) st)
        /\ forall argc,
            main env only_continuous_ping argc st = continuous_ping env st).
Proof.
  intros env st. split.
  - intros op Hop.
    apply (confined_perform env stays_in_foreground plain_error).
    + apply stays_in_foreground_refl.
    + apply stays_in_foreground_trans.
    + apply stays_in_foreground_emit.
    + intros c e F. destruct c; simpl in F; try discriminate F;
        now injection F as <-.
    + exact (fun _ => I).
    + rewrite Hop. discriminate.
  - intros child lines rest H.
    pose proof (continuous_ping_interrupted _ _ _ _ _ H) as E.
    split; [exact E|].
    intros argc.
    cbv [main main_with only_continuous_ping when bind ret
         Args.start Args.stop Args.setup Args.use_north Args.use_south
         Args.switch_to_north Args.switch_to_south Args.show_routes
         Args.show_neighbors Args.traceroute Args.ping
         Args.continuous_ping].
    now rewrite E.
Qed.

Lemma only_continuous_ping_is_in_background_witness :
  stays_in_foreground initial_state
    (snd (perform all_fail (op_main setup_switch_ping 4) initial_state))
  /\ main interrupted_ping only_continuous_ping 2 initial_state =
     (Raises (SystemExit 0),
      pinging 42
        [ Print "64 bytes from 10.0.15.3: icmp_seq=1";
          Print "64 bytes from 10.0.15.3: icmp_seq=2";
          Print (Py.nl +++ "Stopping ping...");
          Terminate 42 ] initial_state).
Proof.
  split.
  - apply (proj1 (only_continuous_ping_is_in_background
                    all_fail initial_state)
             (op_main setup_switch_ping 4)).
    reflexivity.
  - destruct (proj2 (only_continuous_ping_is_in_background
                       interrupted_ping initial_state)
                42 [ "64 bytes from 10.0.15.3: icmp_seq=1";
                     "64 bytes from 10.0.15.3: icmp_seq=2" ]
                [Line "64 bytes from 10.0.15.3: icmp_seq=3"] eq_refl)
      as [E M].
    rewrite M. exact E.
Defined.

(* ================================================================== *)
(** * Further properties of the script *)

(** ** The loops over the tables *)

Lemma dict_get_in {V : Type} (d : dict V) key v :
  In (key, v) d -> exists first, dict_get key d = Some first.
Proof.
  induction d as [|[k w] d IH]; intros H; [contradiction|].
  simpl. destruct (String.eqb k key) eqn:E; [eauto|].
  destruct H as [H|H]; [|auto].
  injection H as -> _. now rewrite String.eqb_refl in E.
Qed.

Lemma issues_for_each_in env {A : Type} (xs : list A) (body : A -> M unit)
  g (script : A -> list event) :
  (forall x, In x xs -> issues env (body x) g (script x)) ->
  issues env (for_each xs body) g (flat_map script xs).
Proof.
  intros H. induction xs as [|x xs IH]; simpl.
  - apply issues_ret.
  - apply issues_bind.
    + apply H. now left.
    + intros _. apply IH. intros y Hy. apply H. now right.
Qed.

Lemma issues_one_router env g path router config :
  In (router, config) (ROUTERS g) ->
  issues env
    (configure_basic_ospf env router config ;;
     if String.eqb router "r1" then
       i <- ROUTERS_at router north_interface ;;
       set_ospf_weight env router i (north_cost g path) ;;
       i <- ROUTERS_at router south_interface ;;
       set_ospf_weight env router i (south_cost g path)
     else if String.eqb router "r2" then
       i <- ROUTERS_at router north_interface ;;
       set_ospf_weight env router i (north_cost g path) ;;
       i <- ROUTERS_at router south_interface ;;
       set_ospf_weight env router i (north_cost g path)
     else if String.eqb router "r3" then
       i <- ROUTERS_at router north_interface ;;
       set_ospf_weight env router i (north_cost g path) ;;
       i <- ROUTERS_at router south_interface ;;
       set_ospf_weight env router i (south_cost g path)
     else if String.eqb router "r4" then
       i <- ROUTERS_at router north_interface ;;
       set_ospf_weight env router i (south_cost g path) ;;
       i <- ROUTERS_at router south_interface ;;
       set_ospf_weight env router i (south_cost g path)
     else ret tt)
    g (router_issues g path (router, config)).
Proof.
  intros Hin. destruct (dict_get_in _ _ _ Hin) as [current Hget].
  unfold router_issues. rewrite Hget.
  assert (W : forall n s,
    issues env
      (i <- ROUTERS_at router north_interface ;;
       set_ospf_weight env router i n ;;
       i <- ROUTERS_at router south_interface ;;
       set_ospf_weight env router i s) g
      [weight_command router (north_interface current) n;
       weight_command router (south_interface current) s]).
  { intros n s.
    eapply issues_evaluated; [apply evaluates_ROUTERS_at, Hget|].
    apply (issues_bind env _ _ g [_] [_]);
      [apply issues_set_ospf_weight | intros _].
    eapply issues_evaluated; [apply evaluates_ROUTERS_at, Hget|].
    apply issues_set_ospf_weight. }
  apply (issues_bind env _ _ g [_]);
    [apply issues_configure_basic_ospf | intros _].
  destruct (String.eqb router "r1"); [apply W|].
  destruct (String.eqb router "r2"); [apply W|].
  destruct (String.eqb router "r3"); [apply W|].
  destruct (String.eqb router "r4"); [apply W|].
  apply issues_ret.
Qed.

Lemma issues_configure_ospf_any env g path :
  issues env (configure_ospf env path) g
         (flat_map (router_issues g path) (ROUTERS g) ++ [Sleep 5]).
Proof.
  unfold configure_ospf.
  apply (issues_bind env _ _ g []); [apply issues_print | intros _].
  eapply issues_evaluated
    with (a := (north_cost g path, north_cost g path,
                south_cost g path, south_cost g path)).
  { unfold north_cost, south_cost. destruct (String.eqb path "north");
      repeat (eapply evaluates_bind; [apply evaluates_read|]);
      apply evaluates_ret. }
  cbv beta iota.
  eapply issues_evaluated; [apply evaluates_read|].
  apply issues_bind.
  - apply issues_for_each_in. intros [router config] Hin.
    now apply issues_one_router.
  - intros _. eapply issues_eq.
    + eapply issues_bind; [apply issues_print | intro].
      eapply issues_bind; [apply issues_time_sleep | intro].
      apply issues_print.
    + reflexivity.
Qed.

(** X1. For every table [ROUTERS] whose entries have all their keys (the
    entries are records), with any names, in any number and order:
    [configure_ospf] finds each router it looks up again by its name while
    it goes through the table; when every process starts it returns, having
    issued for each entry, in the order of the table, the basic
    configuration and, for the names r1 to r4 only, the two link costs with
    the interface names of the table; then it waits 5 seconds.  An entry with
    another name gets its basic configuration and no cost, an empty table
    only the wait. *)
Theorem configure_ospf_on_any_table :
  forall (env : environment) (path : string) (st : state),
    all_start env ->
    fst (configure_ospf env path st) = Returns tt /\
    issued (configure_ospf env path) st =
      flat_map (router_issues (globals st) path) (ROUTERS (globals st))
      ++ [Sleep 5].
Proof.
  intros env path st Hall.
  destruct (issues_returns _ _ _ _ st
              (issues_configure_ospf_any env (globals st) path)
              eq_refl Hall) as [[[] R] I].
  split; [exact R | exact I].
Qed.

Lemma configure_ospf_on_any_table_witness :
  fst (configure_ospf all_fail "north" (state_with edge_and_r3)) = Returns tt
  /\ issued (configure_ospf all_fail "north") (state_with edge_and_r3) =
     [ basic_command "edge" "192.168.1.9" ["10.0.99.0/24"];
       basic_command "r3" "192.168.1.3" [];
       weight_command "r3" "eth0" 10;
       weight_command "r3" "eth1" 100;
       Sleep 5 ].
Proof.
  apply (configure_ospf_on_any_table all_fail "north"
           (state_with edge_and_r3)).
  intros history argv. now exists 1%Z, EmptyString, "failed".
Defined.

(** ** A table without a router *)

Lemma set_link_weight_missing env router field WEIGHT st :
  dict_get router (ROUTERS (globals st)) = None ->
  set_link_weight env router field WEIGHT st = (Raises (KeyError router), st).
Proof.
  intros H. unfold set_link_weight, ROUTERS_at, bind, read, getitem.
  now rewrite H.
Qed.

Lemma set_link_weight_set env router field WEIGHT st config :
  all_start env ->
  dict_get router (ROUTERS (globals st)) = Some config ->
  exists evs,
    set_link_weight env router field WEIGHT st = (Returns tt, logged evs st)
    /\ commands_of evs = [weight_command router (field config)
                                         (WEIGHT (globals st))].
Proof.
  intros Hall H.
  unfold set_link_weight, ROUTERS_at, bind at 1 2 3, read, getitem.
  rewrite H. cbn [ret]. unfold bind at 1, read.
  unfold set_ospf_weight, bind.
  match goal with
  | |- context [run_command env ?cmd None st] =>
      destruct (Hall (log st) (full_cmd_of cmd None)) as (rc & out & err & C);
      rewrite (run_command_completed _ _ _ _ _ _ _ C)
  end.
  destruct (rc =? 0)%Z; eexists; (split; [reflexivity|]); reflexivity.
Qed.

Lemma bind_print {B : Type} line (k : unit -> M B) st :
  bind (print line) k st = k tt (emit (Print line) st).
Proof. reflexivity. Qed.

Lemma bind_assoc {A B C : Type} (m : M A) (f : A -> M B) (k : B -> M C) st :
  bind (bind m f) k st = bind m (fun x => bind (f x) k) st.
Proof. unfold bind. now destruct (m st) as [[a|e] st1]. Qed.

Lemma bind_returned {A B : Type} (m : M A) (k : A -> M B) st a st1 :
  m st = (Returns a, st1) -> bind m k st = k a st1.
Proof. intros H. unfold bind. now rewrite H. Qed.

Lemma bind_raised {A B : Type} (m : M A) (k : A -> M B) st e st1 :
  m st = (Raises e, st1) -> bind m k st = (Raises e, st1).
Proof. intros H. unfold bind. now rewrite H. Qed.

Lemma logged_logged evs1 evs2 st :
  logged evs2 (logged evs1 st) = logged (evs1 ++ evs2) st.
Proof. unfold logged; simpl. now rewrite app_assoc. Qed.

Lemma emit_logged e st : emit e st = logged [e] st.
Proof. reflexivity. Qed.

(** X2. A supported switch on a table that has no entry for r1 raises
    [KeyError] for r1 before it runs any command.  On a table that has r1
    but not r4, the switch from north to south lowers the cost of the link
    end of r1 and then raises [KeyError] for r4, with the other seven costs
    not set and no cost of the northern path raised. *)
Theorem switch_on_a_table_without_a_router :
  forall (env : environment) (st : state),
    (forall from_path to_path,
        supported from_path to_path = true ->
        dict_get "r1" (ROUTERS (globals st)) = None ->
        switch_traffic_path env from_path to_path st =
          (Raises (KeyError "r1"),
           logged [ Print ("Switching traffic from " +++ from_path +++
                           " path to " +++ to_path +++ " path...");
                    Print (step_1_line from_path) ] st))
    /\ (forall r1_config,
        all_start env ->
        dict_get "r1" (ROUTERS (globals st)) = Some r1_config ->
        dict_get "r4" (ROUTERS (globals st)) = None ->
        fst (switch_traffic_path env "north" "south" st)
          = Raises (KeyError "r4") /\
        issued (switch_traffic_path env "north" "south") st =
          [weight_command "r1" (south_interface r1_config)
                          (DEFAULT_WEIGHT (globals st))]).
Proof.
  intros env st. split.
  - intros from_path to_path S H.
    destruct (supported_pairs _ _ S) as [[-> ->]|[-> ->]];
      unfold switch_traffic_path; cbn [String.eqb Ascii.eqb Bool.eqb andb];
      rewrite bind_print, bind_assoc, bind_print, bind_assoc;
      (erewrite bind_raised by (apply set_link_weight_missing; exact H));
      now rewrite !emit_logged, logged_logged.
  - intros r1_config Hall H1 H4.
    unfold issued, switch_traffic_path.
    cbn [String.eqb Ascii.eqb Bool.eqb andb].
    rewrite bind_print, bind_assoc, bind_print, bind_assoc.
    destruct (set_link_weight_set env "r1" south_interface DEFAULT_WEIGHT
                (emit (Print "Step 1: Lowering cost of southern path")
                   (emit (Print
                      "Switching traffic from north path to south path...")
                      st))
                r1_config Hall H1) as (evs & E & C).
    rewrite (bind_returned _ _ _ _ _ E), bind_assoc.
    erewrite bind_raised by (apply set_link_weight_missing; exact H4).
    split; [reflexivity|].
    rewrite !emit_logged, !logged_logged. cbn [snd log logged].
    rewrite skipn_length_app, commands_of_app. exact C.
Qed.

Lemma switch_on_a_table_without_a_router_witness :
  fst (switch_traffic_path all_fail "north" "south" (state_with without_r4))
    = Raises (KeyError "r4")
  /\ issued (switch_traffic_path all_fail "north" "south")
            (state_with without_r4)
     = [weight_command "r1" "eth2" 10]
  /\ fst (switch_traffic_path all_fail "south" "north"
            (state_with edge_and_r3)) = Raises (KeyError "r1").
Proof.
  assert (F : all_start all_fail)
    by (intros history argv; now exists 1%Z, EmptyString, "failed").
  destruct (proj2 (switch_on_a_table_without_a_router
                     all_fail (state_with without_r4))
              _ F eq_refl eq_refl) as [R I].
  split; [exact R|]. split; [exact I|].
  rewrite (proj1 (switch_on_a_table_without_a_router
                    all_fail (state_with edge_and_r3))
             "south" "north" eq_refl eq_refl).
  reflexivity.
Defined.

(** ** The loops over [HOSTS] and over the router names *)

Lemma issues_setup_host_routes_any env g :
  issues env (setup_host_routes env) g (map host_route (HOSTS g)).
Proof.
  unfold setup_host_routes.
  apply (issues_bind env _ _ g []); [apply issues_print | intros _].
  eapply issues_evaluated; [apply evaluates_read|].
  eapply issues_eq.
  - apply issues_bind; [|intros _; apply issues_print].
    apply (issues_for_each env _ _ g (fun entry => [host_route entry])).
    intros [host config].
    apply (issues_bind env _ _ g [_] []);
      [apply issues_run_command | intros _; apply issues_ret].
  - rewrite app_nil_r. unfold items.
    induction (HOSTS g) as [|entry hosts IH]; simpl; [|rewrite IH];
      reflexivity.
Qed.

(** X3. For every table [HOSTS] whose entries have all their keys (the
    entries are records), with any names, in any number and order:
    [setup_host_routes] adds one route per host, in the order of the table:
    the host's remote subnet via the host's gateway, run in the container
    named like the host.  It returns when every process starts, also when
    the routes could not be added; in any case what it issues is an initial
    segment of these commands. *)
Theorem setup_host_routes_on_any_table :
  forall (env : environment) (st : state),
    prefix (issued (setup_host_routes env) st)
           (map host_route (HOSTS (globals st)))
    /\ (all_start env ->
        fst (setup_host_routes env st) = Returns tt /\
        issued (setup_host_routes env) st
        = map host_route (HOSTS (globals st))).
Proof.
  intros env st.
  pose proof (issues_setup_host_routes_any env (globals st)) as I.
  split.
  - exact (issues_prefix _ _ _ _ st I eq_refl).
  - intros Hall.
    destruct (issues_returns _ _ _ _ st I eq_refl Hall) as [[[] R] E].
    split; [exact R | exact E].
Qed.

Lemma setup_host_routes_on_any_table_witness :
  fst (setup_host_routes all_fail initial_state) = Returns tt /\
  issued (setup_host_routes all_fail) initial_state =
    [ Run ["docker"; "exec"; "hosta";
           "ip"; "route"; "add"; "10.0.15.0/24"; "via"; "10.0.14.4"];
      Run ["docker"; "exec"; "hostb";
           "ip"; "route"; "add"; "10.0.14.0/24"; "via"; "10.0.15.4"] ].
Proof.
  apply (proj2 (setup_host_routes_on_any_table all_fail initial_state)).
  intros history argv. now exists 1%Z, EmptyString, "failed".
Defined.




(** ** What the callers print *)

Lemma run_command_completed_logged env cmd container st rc out err :
  os_run env (log st) (full_cmd_of cmd container) = Completed rc out err ->
  run_command env cmd container st =
    (Returns (if (rc =? 0)%Z then Some (Py.strip out) else None),
     logged (Run (full_cmd_of cmd container)
             :: failure_lines (full_cmd_of cmd container) rc err) st).
Proof.
  intros H. rewrite (run_command_completed _ _ _ _ _ _ _ H).
  unfold failure_lines. now destruct (rc =? 0)%Z.
Qed.

Lemma print_or_reports rc out fallback st :
  print_or (if (rc =? 0)%Z then Some (Py.strip out) else None) fallback st
  = (Returns tt, logged [Print (query_report rc out fallback)] st).
Proof.
  unfold query_report, has_output, print_or.
  destruct (rc =? 0)%Z; simpl; [|reflexivity].
  now destruct (Py.truthy (Py.strip out)).
Qed.

Lemma query_in_hosta env header cmd fallback st rc out err :
  os_run env (log st ++ [Print header]) (["docker"; "exec"; "hosta"] ++ cmd)
    = Completed rc out err ->
  (print header ;;
   output <- run_command env cmd (Some "hosta") ;;
   print_or output fallback) st
  = (Returns tt,
     logged ([Print header; Run (["docker"; "exec"; "hosta"] ++ cmd)]
             ++ failure_lines (["docker"; "exec"; "hosta"] ++ cmd) rc err
             ++ [Print (query_report rc out fallback)]) st).
Proof.
  intros H. rewrite bind_print.
  erewrite bind_returned
    by (apply run_command_completed_logged; exact H).
  rewrite print_or_reports, emit_logged, !logged_logged. reflexivity.
Qed.

(** X5. [trace_route] and [ping_test] report by the output they get, not by
    the exit status alone: when the process ends, they print its output
    without the white space around it if it exited with status 0 and that
    output is not empty, and the fixed line of failure otherwise, so a run
    that succeeds and prints only white space is reported as failed.  The
    run is the header, the one command in hosta, the three lines of
    [run_command] on a nonzero status, and that report. *)
Theorem queries_report_by_their_output :
  forall (env : environment) (st : state) (rc : Z) (out err : string),
    (let header := Py.nl +++ "=== Traceroute from HostA to HostB ===" in
     let argv := ["docker"; "exec"; "hosta";
                  "traceroute"; "-n"; "10.0.15.3"] in
     os_run env (log st ++ [Print header]) argv = Completed rc out err ->
     trace_route env st =
       (Returns tt,
        logged ([Print header; Run argv] ++ failure_lines argv rc err ++
                [Print (query_report rc out "Traceroute failed")]) st))
    /\ (forall count,
        let header := Py.nl +++ "=== Ping test from HostA to HostB (" +++
                      Py.str count +++ " packets) ===" in
        let argv := ["docker"; "exec"; "hosta";
                     "ping"; "-c"; Py.str count; "10.0.15.3"] in
        os_run env (log st ++ [Print header]) argv = Completed rc out err ->
        ping_test env count st =
          (Returns tt,
           logged ([Print header; Run argv] ++ failure_lines argv rc err ++
                   [Print (query_report rc out "Ping failed")]) st)).
Proof.
  intros env st rc out err. split.
  - intros header argv H. now apply query_in_hosta.
  - intros count header argv H. now apply query_in_hosta.
Qed.

Lemma queries_report_by_their_output_witness :
  trace_route blank_output initial_state =
    (Returns tt,
     logged [ Print (Py.nl +++ "=== Traceroute from HostA to HostB ===");
              Run ["docker"; "exec"; "hosta";
                   "traceroute"; "-n"; "10.0.15.3"];
              Print "Traceroute failed" ] initial_state)
  /\ ping_test prints_4242 4 initial_state =
     (Returns tt,
      logged [ Print (Py.nl +++
                      "=== Ping test from HostA to HostB (4 packets) ===");
               Run ["docker"; "exec"; "hosta";
                    "ping"; "-c"; "4"; "10.0.15.3"];
               Print "4242" ] initial_state).
Proof.
  split.
  - apply (proj1 (queries_report_by_their_output
                    blank_output initial_state
                    0 ("  " +++ Py.nl) EmptyString)).
    reflexivity.
  - apply (proj2 (queries_report_by_their_output
                    prints_4242 initial_state
                    0 ("4242" +++ Py.nl) EmptyString) 4%Z).
    reflexivity.
Defined.

Lemma run_command_returns env cmd container st :
  all_start env ->
  exists output evs,
    run_command env cmd container st = (Returns output, logged evs st) /\
    commands_of evs = [Run (full_cmd_of cmd container)].
Proof.
  intros Hall.
  destruct (Hall (log st) (full_cmd_of cmd container))
    as (rc & out & err & C).
  rewrite (run_command_completed_logged _ _ _ _ _ _ _ C).
  do 2 eexists. split; [reflexivity|].
  unfold failure_lines. now destruct (rc =? 0)%Z.
Qed.

Lemma verification_reports container rc out st :
  match (if (rc =? 0)%Z then Some (Py.strip out) else None) with
  | Some pid_text =>
      if Py.truthy pid_text
      then print ("OSPF daemon running on " +++ container +++
                  " (pid " +++ pid_text +++ ")")
      else print ("Warning: OSPF daemon may not be running on " +++ container)
  | None => print ("Warning: OSPF daemon may not be running on " +++ container)
  end st
  = (Returns tt, logged [Print (verification_line container rc out)] st).
Proof.
  unfold verification_line, has_output.
  destruct (rc =? 0)%Z; simpl; [|reflexivity].
  now destruct (Py.truthy (Py.strip out)).
Qed.

(** X6. [install_frr] runs its nine commands whatever their exit statuses
    and ends with its verdict on the check with [pgrep]: the daemon is
    reported as running, with the output of [pgrep] as its pid, exactly when
    [pgrep] exited with status 0 and printed more than white space; in every
    other case the last line is the warning.  No failure of the eight
    commands before changes that verdict. *)
Theorem install_frr_reports_the_pgrep_check :
  forall (env : environment) (container : string) (st : state)
         (rc : Z) (out err : string),
    all_start env ->
    (forall history,
        os_run env history
               (full_cmd_of ["bash"; "-c"; "pgrep ospfd"] (Some container))
        = Completed rc out err) ->
    exists evs,
      install_frr env container st =
        (Returns tt,
         logged (evs ++ [Print (verification_line container rc out)]) st)
      /\ commands_of evs = install_frr_issues container.
Proof.
  intros env container st rc out err Hall Hpgrep.
  unfold install_frr. rewrite bind_print.
  do 8 match goal with
       | |- context [bind (run_command env ?cmd ?c) _ ?s] =>
           let E := fresh "E" in
           let C := fresh "C" in
           destruct (run_command_returns env cmd c s Hall)
             as (? & ? & E & C);
           rewrite (bind_returned _ _ _ _ _ E); clear E
       end.
  erewrite bind_returned
    by (apply run_command_completed_logged; apply Hpgrep).
  rewrite verification_reports, emit_logged, !logged_logged.
  rewrite !app_assoc.
  eexists. split; [reflexivity|].
  rewrite !commands_of_app.
  repeat match goal with C : commands_of _ = _ |- _ => rewrite C; clear C end.
  unfold failure_lines. now destruct (rc =? 0)%Z.
Qed.

Lemma install_frr_reports_the_pgrep_check_witness :
  exists evs,
    install_frr blank_output "r1" initial_state =
      (Returns tt,
       logged (evs ++
               [Print "Warning: OSPF daemon may not be running on r1"])
              initial_state)
    /\ commands_of evs = install_frr_issues "r1".
Proof.
  apply (install_frr_reports_the_pgrep_check
           blank_output "r1" initial_state 0 ("  " +++ Py.nl) EmptyString).
  - intros history argv. now exists 0%Z, ("  " +++ Py.nl), EmptyString.
  - reflexivity.
Defined.

(** ** The lines of completion *)

Lemma bind_returns_inv {A B : Type} (m : M A) (k : A -> M B) st b st' :
  bind m k st = (Returns b, st') ->
  exists a st1, m st = (Returns a, st1) /\ k a st1 = (Returns b, st').
Proof.
  unfold bind. destruct (m st) as [[a|e] st1]; [eauto | discriminate].
Qed.

Lemma concludes_print line : concludes (print line) line.
Proof.
  intros st a st' [= _ <-]. now exists (log st).
Qed.

Lemma concludes_bind {A B : Type} (m : M A) (k : A -> M B) line :
  (forall a, concludes (k a) line) -> concludes (bind m k) line.
Proof.
  intros H st b st' E.
  destruct (bind_returns_inv _ _ _ _ _ E) as (a & st1 & _ & K).
  exact (H a st1 b st' K).
Qed.

Lemma concludes_perform env op line :
  completion_line op = Some line -> concludes (perform env op) line.
Proof.
  destruct op; simpl; intros [= <-];
    repeat first
      [ apply concludes_print
      | apply concludes_bind; intro
      | match goal with
        | |- concludes (let '(_, _) := ?p in _) _ => destruct p
        end ].
Qed.

(** X7. The operations that report that they are done do so whatever
    their commands did: when every process starts, [start_containers],
    [stop_containers], [configure_ospf], [setup_host_routes] and
    [switch_traffic_path] return with their line of completion printed
    last, also when every command exited with a nonzero status. *)
Theorem completion_is_printed_whatever_failed :
  forall (env : environment) (op : operation) (line : string) (st : state),
    completion_line op = Some line ->
    all_start env ->
    globals st = module_globals ->
    fst (perform env op st) = Returns tt /\
    exists evs, log (snd (perform env op st)) = evs ++ [Print line].
Proof.
  intros env op line st Hline Hall Hg.
  assert (Hop : reaches_continuous_ping op = false)
    by (destruct op; try reflexivity; discriminate Hline).
  destruct (issues_returns _ _ _ _ st (issues_perform env op Hop) Hg Hall)
    as [[[] R] _].
  split; [exact R|].
  destruct (perform env op st) as [r st'] eqn:E. simpl in R. subst r.
  exact (concludes_perform env op line Hline st tt st' E).
Qed.

Lemma completion_is_printed_whatever_failed_witness :
  fst (perform all_fail (op_switch_traffic_path "north" "south")
               initial_state) = Returns tt /\
  exists evs,
    log (snd (perform all_fail (op_switch_traffic_path "north" "south")
                      initial_state))
    = evs ++ [Print "Traffic switched to south path"].
Proof.
  apply (completion_is_printed_whatever_failed
           all_fail (op_switch_traffic_path "north" "south")
           "Traffic switched to south path" initial_state).
  - reflexivity.
  - intros history argv. now exists 1%Z, EmptyString, "failed".
  - reflexivity.
Defined.

(** ** [continuous_ping] without an interrupt *)

Lemma continuous_ping_not_spawned env st oe :
  os_popen env (before_spawn st) ping_argv = SpawnFailed oe ->
  continuous_ping env st =
    (Raises (OSError oe),
     logged [ Print "Starting continuous ping from HostA to HostB...";
              Print "Press Ctrl+C to stop";
              Popen ping_argv ] st).
Proof.
  intros H. unfold continuous_ping. rewrite !bind_print.
  unfold bind, subprocess_Popen. cbn [emit log].
  rewrite <- app_assoc. unfold ping_argv, before_spawn in H. rewrite H.
  now rewrite !emit_logged, !logged_logged.
Qed.

(** X8. When the child cannot be spawned, [continuous_ping] raises the
    error of the operating system before it installs its handler: the
    handler of SIGINT is the one it was.  When the child closes its output
    and no SIGINT arrived, [continuous_ping] prints the lines and returns;
    it has not terminated the child, and its own handler stays installed
    for SIGINT: the handler that was there before is not put back. *)
Theorem continuous_ping_without_interrupt :
  forall (env : environment) (st : state),
    (forall oe,
        os_popen env (before_spawn st) ping_argv = SpawnFailed oe ->
        continuous_ping env st =
          (Raises (OSError oe),
           logged [ Print "Starting continuous ping from HostA to HostB...";
                    Print "Press Ctrl+C to stop";
                    Popen ping_argv ] st))
    /\ (forall child lines,
        os_popen env (before_spawn st) ping_argv
          = Spawned child (map Line lines) ->
        continuous_ping env st =
          (Returns tt, pinging child (print_lines lines) st)
        /\ sigint (snd (continuous_ping env st)) = signal_handler child
        /\ existsb is_terminate
             (skipn (length (log st)) (log (snd (continuous_ping env st))))
           = false).
Proof.
  intros env st. split.
  - intros oe H. now apply continuous_ping_not_spawned.
  - intros child lines H.
    pose proof (continuous_ping_ended _ _ _ _ H) as E.
    split; [exact E|]. split; [now rewrite E|].
    rewrite E. unfold pinging, print_lines; cbn [snd log].
    rewrite skipn_length_app, existsb_app. cbn [existsb is_terminate orb].
    clear. induction lines as [|l lines IH]; [reflexivity | exact IH].
Qed.

(** ** The costs the script has asked for *)

Lemma prefix_firstn {A : Type} (p l : list A) :
  prefix p l -> In (length p) (seq 0 (S (length l))) /\ p = firstn (length p) l.
Proof.
  intros [rest ->]. split.
  - apply in_seq. rewrite length_app. simpl. split; [apply Nat.le_0_l|].
    apply Nat.lt_succ_r, Nat.le_add_r.
  - rewrite firstn_app, Nat.sub_diag, firstn_all. simpl.
    now rewrite app_nil_r.
Qed.

Lemma always_a_low_path (path from_path to_path : string) :
  supported from_path to_path = true ->
  forallb
    (fun k =>
       let table :=
         commanded_costs
           (configure_ospf_issues path ++
            firstn k (switch_traffic_path_issues from_path to_path)) in
       path_is_low table from_path || path_is_low table to_path)
    (seq 0 (S (length (switch_traffic_path_issues from_path to_path))))
  = true.
Proof.
  intros S. unfold configure_ospf_issues.
  destruct (supported_pairs _ _ S) as [[-> ->]|[-> ->]];
    destruct (String.eqb path "north"); vm_compute; reflexivity.
Qed.

(** X9. While [switch_traffic_path] runs, the costs asked for never leave
    both paths high: after [configure_ospf] with any path and then any
    initial part of the commands of a supported switch, all four link ends
    of the origin path or all four link ends of the destination path have
    the low cost. *)
Theorem a_path_stays_low_during_the_switch :
  forall (env : environment) (path from_path to_path : string)
         (st1 st2 : state) (done : list event),
    all_start env ->
    globals st1 = module_globals ->
    globals st2 = module_globals ->
    supported from_path to_path = true ->
    prefix done (issued (switch_traffic_path env from_path to_path) st2) ->
    let table :=
      commanded_costs (issued (configure_ospf env path) st1 ++ done) in
    path_is_low table from_path = true \/ path_is_low table to_path = true.
Proof.
  intros env path from_path to_path st1 st2 done Hall G1 G2 S P table.
  subst table.
  destruct (issues_returns _ _ _ _ st1 (issues_configure_ospf env path)
              G1 Hall) as [_ E1].
  destruct (issues_returns _ _ _ _ st2
              (issues_switch_traffic_path env from_path to_path) G2 Hall)
    as [_ E2].
  rewrite E1. rewrite E2 in P.
  destruct (prefix_firstn _ _ P) as [Hk ->].
  pose proof (always_a_low_path path from_path to_path S) as F.
  rewrite forallb_forall in F. specialize (F _ Hk). cbv zeta in F.
  now apply orb_prop in F.
Qed.

Lemma a_path_stays_low_during_the_switch_witness :
  let table :=
    commanded_costs
      (issued (configure_ospf all_succeed "north") initial_state ++
       [on_link "r1" "r4" 10; on_link "r4" "r1" 10]) in
  path_is_low table "north" = true \/ path_is_low table "south" = true.
Proof.
  apply (a_path_stays_low_during_the_switch
           all_succeed "north" "north" "south" initial_state initial_state
           [on_link "r1" "r4" 10; on_link "r4" "r1" 10]).
  - intros history argv. now exists 0%Z, EmptyString, EmptyString.
  - reflexivity.
  - reflexivity.
  - reflexivity.
  - exists (skipn 2 (switch_traffic_path_issues "north" "south")).
    vm_compute. reflexivity.
Defined.

(** X10. A supported switch ends where [configure_ospf] for the
    destination ends: whichever path was configured before, once all the
    commands of the switch were issued, every link end has the cost that
    [configure_ospf] with the destination path asks for. *)
Theorem switch_ends_like_configure :
  forall (env : environment) (path from_path to_path : string)
         (st1 st2 st3 : state),
    all_start env ->
    globals st1 = module_globals ->
    globals st2 = module_globals ->
    globals st3 = module_globals ->
    supported from_path to_path = true ->
    commanded_costs
      (issued (configure_ospf env path) st1 ++
       issued (switch_traffic_path env from_path to_path) st2)
    = commanded_costs (issued (configure_ospf env to_path) st3).
Proof.
  intros env path from_path to_path st1 st2 st3 Hall G1 G2 G3 S.
  destruct (issues_returns _ _ _ _ st1 (issues_configure_ospf env path)
              G1 Hall) as [_ ->].
  destruct (issues_returns _ _ _ _ st2
              (issues_switch_traffic_path env from_path to_path) G2 Hall)
    as [_ ->].
  destruct (issues_returns _ _ _ _ st3 (issues_configure_ospf env to_path)
              G3 Hall) as [_ ->].
  unfold configure_ospf_issues.
  destruct (supported_pairs _ _ S) as [[-> ->]|[-> ->]];
    destruct (String.eqb path "north"); vm_compute; reflexivity.
Qed.

Lemma switch_ends_like_configure_witness :
  commanded_costs
    (issued (configure_ospf all_fail "north") initial_state ++
     issued (switch_traffic_path all_fail "north" "south") initial_state)
  = [ ("r1", "interface eth1", "ip ospf cost 100");
      ("r1", "interface eth2", "ip ospf cost 10");
      ("r2", "interface eth0", "ip ospf cost 100");
      ("r2", "interface eth1", "ip ospf cost 100");
      ("r3", "interface eth0", "ip ospf cost 100");
      ("r3", "interface eth1", "ip ospf cost 10");
      ("r4", "interface eth0", "ip ospf cost 10");
      ("r4", "interface eth1", "ip ospf cost 10") ].
Proof.
  rewrite (switch_ends_like_configure
             all_fail "north" "north" "south"
             initial_state initial_state initial_state
             (fun history argv =>
                ex_intro _ 1%Z
                  (ex_intro _ EmptyString (ex_intro _ "failed" eq_refl)))
             eq_refl eq_refl eq_refl eq_refl).
  reflexivity.
Defined.

Lemma continuous_ping_without_interrupt_witness :
  continuous_ping no_docker initial_state =
    (Raises (OSError (FileNotFoundError "docker")),
     logged [ Print "Starting continuous ping from HostA to HostB...";
              Print "Press Ctrl+C to stop";
              Popen ping_argv ] initial_state)
  /\ continuous_ping ping_ends initial_state =
     (Returns tt,
      pinging 42 [ Print "64 bytes from 10.0.15.3: icmp_seq=1";
                   Print "64 bytes from 10.0.15.3: icmp_seq=2" ]
              initial_state).
Proof.
  split.
  - apply (proj1 (continuous_ping_without_interrupt
                    no_docker initial_state)).
    reflexivity.
  - apply (proj2 (continuous_ping_without_interrupt
                    ping_ends initial_state)
             42 [ "64 bytes from 10.0.15.3: icmp_seq=1";
                  "64 bytes from 10.0.15.3: icmp_seq=2" ]).
    reflexivity.
Defined.

(** ** The order of [main] *)

(** X11. [main] runs the operations that the flags select in one fixed
    order, each to its end whatever the exit statuses: start, stop, setup
    (start, the installation in each router of the table, [configure_ospf]
    for north, the host routes), use-north, use-south, switch-to-north,
    switch-to-south, show-routes, show-neighbors, traceroute, ping.  With
    start and stop both set the containers are started and then stopped;
    with use-north and use-south both set the southern configuration is the
    last. *)
Theorem main_runs_the_flags_in_a_fixed_order :
  forall (env : environment) (args : Args.t) (argc : nat) (st : state),
    all_start env ->
    globals st = module_globals ->
    Args.continuous_ping args = false ->
    fst (main env args argc st) = Returns tt /\
    issued (main env args argc) st =
      (if Args.start args then start_containers_issues else []) ++
      (if Args.stop args then stop_containers_issues else []) ++
      (if Args.setup args
       then start_containers_issues ++
            flat_map install_frr_issues ["r1"; "r2"; "r3"; "r4"] ++
            configure_ospf_script 10 100 ++
            setup_host_routes_issues
       else []) ++
      (if Args.use_north args then configure_ospf_script 10 100 else []) ++
      (if Args.use_south args then configure_ospf_script 100 10 else []) ++
      (if Args.switch_to_north args
       then set_path_cost "north" 10 ++ [Sleep 5] ++
            set_path_cost "south" 100 ++ [Sleep 5]
       else []) ++
      (if Args.switch_to_south args
       then set_path_cost "south" 10 ++ [Sleep 5] ++
            set_path_cost "north" 100 ++ [Sleep 5]
       else []) ++
      (if Args.show_routes args
       then map (router_query "show ip route ospf") ["r1"; "r2"; "r3"; "r4"]
       else []) ++
      (if Args.show_neighbors args
       then map (router_query "show ip ospf neighbor")
                ["r1"; "r2"; "r3"; "r4"]
       else []) ++
      (if Args.traceroute args
       then [Run ["docker"; "exec"; "hosta";
                  "traceroute"; "-n"; "10.0.15.3"]]
       else []) ++
      (if Args.ping args
       then [Run ["docker"; "exec"; "hosta";
                  "ping"; "-c"; "4"; "10.0.15.3"]]
       else []).
Proof.
  intros env args argc st Hall Hg Hping.
  destruct (issues_returns _ _ _ _ st (issues_main env args argc Hping)
              Hg Hall) as [[[] R] E].
  split; [exact R|]. rewrite E. reflexivity.
Qed.

Lemma main_runs_the_flags_in_a_fixed_order_witness :
  issued (main all_fail start_and_stop 3) initial_state
  = [ Run ["docker"; "compose"; "up"; "-d"]; Sleep 5;
      Run ["docker"; "compose"; "down"] ].
Proof.
  apply (proj2 (main_runs_the_flags_in_a_fixed_order
                  all_fail start_and_stop 3 initial_state
                  (fun history argv =>
                     ex_intro _ 1%Z
                       (ex_intro _ EmptyString
                          (ex_intro _ "failed" eq_refl)))
                  eq_refl eq_refl)).
Defined.

(** ** The lines of the basic configuration *)

Lemma append_empty (s : string) : s +++ EmptyString = s.
Proof. induction s as [|c s IH]; simpl; [reflexivity | now rewrite IH]. Qed.

Lemma concat_nl_cons (x y : string) (rest : list string) :
  String.concat Py.nl (x :: y :: rest)
  = x +++ Py.nl +++ String.concat Py.nl (y :: rest).
Proof. reflexivity. Qed.

Lemma network_lines (nets : list string) (tail : list string) :
  String.concat ""
    (map (fun n => "network " +++ n +++ " area 0.0.0.0" +++ Py.nl) nets)
  +++ String.concat Py.nl ("exit" :: tail)
  = String.concat Py.nl
      (map (fun n => "network " +++ n +++ " area 0.0.0.0") nets
       ++ "exit" :: tail).
Proof.
  induction nets as [|n nets IH].
  - reflexivity.
  - cbn [map app]. rewrite concat_empty_cons, append_assoc, IH.
    destruct nets as [|n' nets]; cbn [map app];
      rewrite concat_nl_cons, !append_assoc; reflexivity.
Qed.

Lemma indent_first_concat (lines : list string) :
  lines <> [] ->
  "    " +++ String.concat Py.nl lines
  = String.concat Py.nl (indent_first lines).
Proof.
  destruct lines as [|x [|y rest]]; [congruence| |]; intros _; reflexivity.
Qed.

Lemma concat_cons_nonempty sep (x : string) (l : list string) :
  l <> [] -> String.concat sep (x :: l) = x +++ sep +++ String.concat sep l.
Proof. destruct l; [congruence | reflexivity]. Qed.

Lemma ospf_text_lines rid nets :
  ospf_text rid nets = Py.join Py.nl (ospf_lines rid nets).
Proof.
  unfold ospf_text, ospf_lines, Py.join.
  change ("exit" +++ Py.nl +++ "end" +++ Py.nl +++ "write memory")
    with (String.concat Py.nl ["exit"; "end"; "write memory"]).
  rewrite network_lines.
  set (g := fun n => "network " +++ n +++ " area 0.0.0.0").
  assert (L : indent_first (map g nets ++ ["exit"]) ++ ["end"; "write memory"]
              = indent_first (map g nets ++ ["exit"; "end"; "write memory"])).
  { destruct nets; cbn; [reflexivity|]. now rewrite <- app_assoc. }
  rewrite L. cbn [app].
  rewrite !concat_cons_nonempty
    by (try discriminate; destruct nets; discriminate).
  rewrite <- indent_first_concat by (destruct nets; discriminate).
  reflexivity.
Qed.

(** X13. Whatever the router, its configuration and the way the process
    ends, [configure_basic_ospf] runs one [vtysh] with one [-c] argument of
    7 + n lines for n networks: an empty line, "configure terminal",
    "router ospf" and the router-id, each after four spaces; one line
    "network N area 0.0.0.0" per network in the order of the list; then
    "exit", "end" and "write memory".  Of the lines after the router-id only
    the first has the four spaces: the first network, or "exit" when there
    is no network. *)
Theorem configure_basic_ospf_sends_these_lines :
  forall (env : environment) (router : string) (config : RouterConfig)
         (st : state),
    issued (configure_basic_ospf env router config) st =
      [Run (full_cmd_of
              ["vtysh"; "-c";
               Py.join Py.nl
                 (ospf_lines (router_id config) (networks config))]
              (Some router))]
    /\ length (ospf_lines (router_id config) (networks config))
       = 7 + length (networks config).
Proof.
  intros env router config st. split.
  - unfold configure_basic_ospf. rewrite issued_bind_ret, issued_run_command.
    rewrite ospf_config_of_text, ospf_text_lines. reflexivity.
  - unfold ospf_lines. cbn [app length].
    destruct (networks config) as [|n nets]; cbn [map app indent_first length];
      [reflexivity|].
    rewrite !length_app, length_map. cbn [length].
    rewrite <- !Nat.add_assoc. cbn [Nat.add]. rewrite Nat.add_comm.
    reflexivity.
Qed.

(** ** When no process can be started *)

Lemma no_run_app xs ys : no_run xs -> no_run ys -> no_run (xs ++ ys).
Proof.
  unfold no_run. intros X Y. now rewrite existsb_app, X, Y.
Qed.

Lemma no_run_commands_of evs : no_run evs -> no_run (commands_of evs).
Proof.
  unfold no_run. induction evs as [|e evs IH]; [reflexivity|].
  simpl. intros H. apply orb_false_elim in H as [He Hevs].
  destruct (is_command e); simpl; [rewrite He|]; auto.
Qed.

Lemma through_first_run_no_run s : no_run s -> through_first_run s = s.
Proof.
  unfold no_run. induction s as [|e s IH]; [reflexivity|].
  simpl. intros H. apply orb_false_elim in H as [He Hs].
  destruct e; try discriminate; now rewrite IH.
Qed.

Lemma through_first_run_prefix before argv rest :
  no_run before ->
  through_first_run ((before ++ [Run argv]) ++ rest) = before ++ [Run argv].
Proof.
  unfold no_run. induction before as [|e before IH]; [reflexivity|].
  simpl. intros H. apply orb_false_elim in H as [He Hb].
  destruct e; try discriminate; now rewrite IH.
Qed.

Lemma existsb_is_run_prefix before argv rest :
  existsb is_run ((before ++ [Run argv]) ++ rest) = true.
Proof.
  rewrite !existsb_app. simpl. now rewrite orb_true_r.
Qed.

Section NoProcessStarts.

Variable env : environment.
Variable oe : os_error.
Hypothesis none_starts : forall history argv,
  os_run env history argv = NotStarted oe.

Lemma stops_ret {A : Type} (a : A) : stops_at_first_run (ret a).
Proof. intros st. exists []. simpl. now rewrite app_nil_r. Qed.

Lemma stops_raise_key {A : Type} key :
  stops_at_first_run (@raise A (KeyError key)).
Proof. intros st. exists []. simpl. now rewrite app_nil_r. Qed.

Lemma stops_bind {A B : Type} (m : M A) (k : A -> M B) :
  stops_at_first_run m -> (forall a, stops_at_first_run (k a)) ->
  stops_at_first_run (bind m k).
Proof.
  intros Hm Hk st. destruct (Hm st) as (evs1 & L1 & R1).
  unfold bind. destruct (m st) as [[a|e] st1]; simpl in *.
  - destruct (Hk a st1) as (evs2 & L2 & R2).
    exists (evs1 ++ evs2). split; [now rewrite L2, L1, app_assoc|].
    destruct (fst (k a st1)) as [b|[]];
      try (now apply no_run_app).
    destruct R2 as (before & argv & -> & N).
    exists (evs1 ++ before), argv. split; [apply app_assoc|].
    now apply no_run_app.
  - exists evs1. split; [exact L1 | exact R1].
Qed.

Lemma stops_emit {A : Type} (e : event) (a : A) :
  is_run e = false -> stops_at_first_run (fun st => (Returns a, emit e st)).
Proof.
  intros H st. exists [e]. split; [reflexivity|].
  unfold no_run. simpl. now rewrite H.
Qed.

Lemma stops_print line : stops_at_first_run (print line).
Proof. now apply stops_emit. Qed.

Lemma stops_time_sleep n : stops_at_first_run (time_sleep n).
Proof. now apply stops_emit. Qed.

Lemma stops_print_help : stops_at_first_run print_help.
Proof. now apply stops_emit. Qed.

Lemma stops_read {A : Type} (name : Globals -> A) :
  stops_at_first_run (read name).
Proof. intros st. exists []. simpl. now rewrite app_nil_r. Qed.

Lemma stops_getitem {V : Type} (d : dict V) key :
  stops_at_first_run (getitem d key).
Proof.
  unfold getitem. destruct (dict_get key d);
    [apply stops_ret | apply stops_raise_key].
Qed.

Lemma stops_for_each {A : Type} (xs : list A) (body : A -> M unit) :
  (forall x, stops_at_first_run (body x)) ->
  stops_at_first_run (for_each xs body).
Proof.
  intros H. induction xs as [|x xs IH]; simpl.
  - apply stops_ret.
  - apply stops_bind; auto.
Qed.

Lemma stops_when flag (m : M unit) :
  (flag = true -> stops_at_first_run m) -> stops_at_first_run (when flag m).
Proof. destruct flag; simpl; auto using stops_ret. Qed.

Lemma stops_run_command cmd container :
  stops_at_first_run (run_command env cmd container).
Proof.
  intros st.
  rewrite (run_command_not_started _ _ _ _ _ (none_starts _ _)).
  exists [Run (full_cmd_of cmd container)]. split; [reflexivity|].
  now exists [], (full_cmd_of cmd container).
Qed.

Ltac stop :=
  repeat first
    [ apply stops_ret
    | apply stops_print
    | apply stops_time_sleep
    | apply stops_print_help
    | apply stops_read
    | apply stops_getitem
    | apply stops_run_command
    | apply stops_bind; [ | intro ]
    | apply stops_for_each; intro
    | match goal with
      | |- stops_at_first_run (if ?b then _ else _) => destruct b
      | |- stops_at_first_run (match ?o with Some _ => _ | None => _ end) =>
          destruct o
      | |- stops_at_first_run (let '(_, _) := ?p in _) => destruct p
      end ].

Lemma stops_start_containers : stops_at_first_run (start_containers env).
Proof. unfold start_containers. stop. Qed.

Lemma stops_stop_containers : stops_at_first_run (stop_containers env).
Proof. unfold stop_containers. stop. Qed.

Lemma stops_install_frr container :
  stops_at_first_run (install_frr env container).
Proof. unfold install_frr. stop. Qed.

Lemma stops_configure_basic_ospf router config :
  stops_at_first_run (configure_basic_ospf env router config).
Proof. unfold configure_basic_ospf. stop. Qed.

Lemma stops_set_ospf_weight router interface weight :
  stops_at_first_run (set_ospf_weight env router interface weight).
Proof. unfold set_ospf_weight. stop. Qed.

Lemma stops_configure_ospf path : stops_at_first_run (configure_ospf env path).
Proof.
  unfold configure_ospf, configure_basic_ospf, set_ospf_weight, ROUTERS_at.
  stop.
Qed.

Lemma stops_setup_host_routes : stops_at_first_run (setup_host_routes env).
Proof. unfold setup_host_routes. stop. Qed.

Lemma stops_switch_traffic_path from_path to_path :
  stops_at_first_run (switch_traffic_path env from_path to_path).
Proof.
  unfold switch_traffic_path, set_link_weight, set_ospf_weight, ROUTERS_at.
  stop.
Qed.

Lemma stops_show_routing_tables : stops_at_first_run (show_routing_tables env).
Proof. unfold show_routing_tables, print_or. stop. Qed.

Lemma stops_show_ospf_neighbors : stops_at_first_run (show_ospf_neighbors env).
Proof. unfold show_ospf_neighbors, print_or. stop. Qed.

Lemma stops_trace_route : stops_at_first_run (trace_route env).
Proof. unfold trace_route, print_or. stop. Qed.

Lemma stops_ping_test count : stops_at_first_run (ping_test env count).
Proof. unfold ping_test, print_or. stop. Qed.

Lemma stops_main args argc :
  Args.continuous_ping args = false ->
  stops_at_first_run (main env args argc).
Proof.
  intros Hping. unfold main, main_with.
  apply stops_bind;
    [apply stops_when; intros _; apply stops_start_containers | intro].
  apply stops_bind;
    [apply stops_when; intros _; apply stops_stop_containers | intro].
  apply stops_bind; [apply stops_when; intros _ | intro].
  { apply stops_bind; [apply stops_start_containers | intro].
    apply stops_bind; [apply stops_read | intro].
    apply stops_bind;
      [apply stops_for_each; intro; apply stops_install_frr | intro].
    apply stops_bind; [apply stops_configure_ospf | intro].
    apply stops_bind; [apply stops_setup_host_routes | intro].
    apply stops_print. }
  do 2 (apply stops_bind;
    [apply stops_when; intros _; apply stops_configure_ospf | intro]).
  do 2 (apply stops_bind;
    [apply stops_when; intros _; apply stops_switch_traffic_path | intro]).
  apply stops_bind;
    [apply stops_when; intros _; apply stops_show_routing_tables | intro].
  apply stops_bind;
    [apply stops_when; intros _; apply stops_show_ospf_neighbors | intro].
  apply stops_bind;
    [apply stops_when; intros _; apply stops_trace_route | intro].
  apply stops_bind;
    [apply stops_when; intros _; apply stops_ping_test | intro].
  apply stops_bind; [apply stops_when; congruence | intro].
  apply stops_when. intros _. apply stops_print_help.
Qed.

Lemma stops_perform op :
  reaches_continuous_ping op = false ->
  stops_at_first_run (perform env op).
Proof.
  intros Hping. destruct op; simpl in *.
  - stop.
  - apply stops_start_containers.
  - apply stops_stop_containers.
  - apply stops_install_frr.
  - apply stops_configure_ospf.
  - apply stops_configure_basic_ospf.
  - apply stops_set_ospf_weight.
  - apply stops_setup_host_routes.
  - apply stops_switch_traffic_path.
  - apply stops_show_routing_tables.
  - apply stops_show_ospf_neighbors.
  - apply stops_trace_route.
  - apply stops_ping_test.
  - discriminate.
  - now apply stops_main.
Qed.

End NoProcessStarts.

(** X12. When no process can be started, every operation that does not
    reach [continuous_ping] stops at its first command: started with the
    globals of the module, it issues its waits and commands up to the first
    process and raises the error of the operating system there, so that
    nothing after that command runs; an operation that has no process to
    run returns.  For [main] this means that the first command of the first
    selected operation is the last event of the program. *)
Theorem nothing_runs_after_a_process_that_did_not_start :
  forall (env : environment) (oe : os_error) (op : operation) (st : state),
    (forall history argv, os_run env history argv = NotStarted oe) ->
    globals st = module_globals ->
    reaches_continuous_ping op = false ->
    issued (perform env op) st = through_first_run (perform_issues op) /\
    fst (perform env op st) =
      if existsb is_run (perform_issues op)
      then Raises (OSError oe) else Returns tt.
Proof.
  intros env oe op st Hnone Hg Hop.
  destruct (issues_perform env op Hop st Hg) as (evs & _ & L & R).
  destruct (stops_perform env oe Hnone op Hop st) as (evs' & L' & R').
  rewrite L in L'. apply app_inv_head in L'. subst evs'.
  unfold issued. rewrite L, skipn_length_app.
  destruct (fst (perform env op st)) as [[]|e].
  - apply no_run_commands_of in R'. rewrite R in R'.
    rewrite (through_first_run_no_run _ R'). split; [exact R|].
    unfold no_run in R'. now rewrite R'.
  - destruct R as [[rest P] (h & argv & N)].
    rewrite Hnone in N. injection N as <-.
    destruct R' as (before & argv' & -> & Nb).
    rewrite commands_of_app in P |- *. cbn [commands_of filter is_command] in *.
    apply no_run_commands_of in Nb.
    rewrite P, (through_first_run_prefix _ _ _ Nb), existsb_is_run_prefix.
    split; reflexivity.
Qed.

Lemma nothing_runs_after_a_process_that_did_not_start_witness :
  issued (perform no_docker (op_main setup_switch_ping 4)) initial_state
    = [Run ["docker"; "compose"; "up"; "-d"]]
  /\ fst (perform no_docker (op_main setup_switch_ping 4) initial_state)
     = Raises (OSError (FileNotFoundError "docker"))
  /\ issued (perform no_docker (op_switch_traffic_path "north" "north"))
            initial_state = [Sleep 5].
Proof.
  destruct (nothing_runs_after_a_process_that_did_not_start
              no_docker (FileNotFoundError "docker")
              (op_main setup_switch_ping 4) initial_state
              (fun _ _ => eq_refl) eq_refl eq_refl) as [I R].
  split; [exact I|]. split; [exact R|].
  apply (nothing_runs_after_a_process_that_did_not_start
           no_docker (FileNotFoundError "docker")
           (op_switch_traffic_path "north" "north") initial_state
           (fun _ _ => eq_refl) eq_refl eq_refl).
Defined.

(** ** The empty container name *)

(** X14. A container name that is the empty string counts as no
    container: [run_command] then runs the command on the local host, not
    through [docker exec], and so does every step of [install_frr] called
    with the empty string. *)
Theorem empty_container_name_means_local_host :
  forall (env : environment) (st : state),
    (forall cmd,
        issued (run_command env cmd (Some EmptyString)) st = [Run cmd])
    /\ (all_start env ->
        issued (install_frr env EmptyString) st =
          map Run
            [ ["apt-get"; "update"];
              ["apt"; "-y"; "install"; "curl"; "gnupg"; "lsb-release"];
              ["bash"; "-c";
               "curl -s https://deb.frrouting.org/frr/keys.gpg | " +++
               "tee /usr/share/keyrings/frrouting.gpg > /dev/null"];
              ["bash"; "-c";
               "echo deb [signed-by=/usr/share/keyrings/frrouting.gpg] " +++
               "https://deb.frrouting.org/frr $(lsb_release -s -c) " +++
               "frr-stable | tee -a /etc/apt/sources.list.d/frr.list"];
              ["apt"; "update"];
              ["apt"; "-y"; "install"; "frr"; "frr-pythontools"];
              ["sed"; "-i"; "s/ospfd=no/ospfd=yes/g"; "/etc/frr/daemons"];
              ["service"; "frr"; "restart"];
              ["bash"; "-c"; "pgrep ospfd"] ]).
Proof.
  intros env st. split.
  - intros cmd. apply issued_run_command.
  - intros Hall.
    destruct (issues_returns _ _ _ _ st
                (issues_install_frr env EmptyString (globals st))
                eq_refl Hall) as [_ ->].
    reflexivity.
Qed.

Lemma empty_container_name_means_local_host_witness :
  issued (install_frr all_fail EmptyString) initial_state =
    map Run
      [ ["apt-get"; "update"];
        ["apt"; "-y"; "install"; "curl"; "gnupg"; "lsb-release"];
        ["bash"; "-c";
         "curl -s https://deb.frrouting.org/frr/keys.gpg | " +++
         "tee /usr/share/keyrings/frrouting.gpg > /dev/null"];
        ["bash"; "-c";
         "echo deb [signed-by=/usr/share/keyrings/frrouting.gpg] " +++
         "https://deb.frrouting.org/frr $(lsb_release -s -c) " +++
         "frr-stable | tee -a /etc/apt/sources.list.d/frr.list"];
        ["apt"; "update"];
        ["apt"; "-y"; "install"; "frr"; "frr-pythontools"];
        ["sed"; "-i"; "s/ospfd=no/ospfd=yes/g"; "/etc/frr/daemons"];
        ["service"; "frr"; "restart"];
        ["bash"; "-c"; "pgrep ospfd"] ].
Proof.
  apply (proj2 (empty_container_name_means_local_host
                  all_fail initial_state)).
  intros history argv. now exists 1%Z, EmptyString, "failed".
Defined.

(** ** There and back *)

(** X15. Switching to the other path and back asks, in the end, for the
    costs the configuration started with: after [configure_ospf] for a
    path, a supported switch away from it and the switch back, every link
    end has the cost [configure_ospf] gave it. *)
Theorem switch_there_and_back :
  forall (env : environment) (from_path to_path : string)
         (st1 st2 st3 : state),
    all_start env ->
    globals st1 = module_globals ->
    globals st2 = module_globals ->
    globals st3 = module_globals ->
    supported from_path to_path = true ->
    commanded_costs
      (issued (configure_ospf env from_path) st1 ++
       issued (switch_traffic_path env from_path to_path) st2 ++
       issued (switch_traffic_path env to_path from_path) st3)
    = commanded_costs (issued (configure_ospf env from_path) st1).
Proof.
  intros env from_path to_path st1 st2 st3 Hall G1 G2 G3 S.
  destruct (issues_returns _ _ _ _ st1 (issues_configure_ospf env from_path)
              G1 Hall) as [_ ->].
  destruct (issues_returns _ _ _ _ st2
              (issues_switch_traffic_path env from_path to_path) G2 Hall)
    as [_ ->].
  destruct (issues_returns _ _ _ _ st3
              (issues_switch_traffic_path env to_path from_path) G3 Hall)
    as [_ ->].
  destruct (supported_pairs _ _ S) as [[-> ->]|[-> ->]];
    vm_compute; reflexivity.
Qed.

Lemma switch_there_and_back_witness :
  commanded_costs
    (issued (configure_ospf all_succeed "north") initial_state ++
     issued (switch_traffic_path all_succeed "north" "south") initial_state ++
     issued (switch_traffic_path all_succeed "south" "north") initial_state)
  = commanded_costs (issued (configure_ospf all_succeed "north")
                            initial_state).
Proof.
  apply (switch_there_and_back all_succeed "north" "south"
           initial_state initial_state initial_state).
  - intros history argv. now exists 0%Z, EmptyString, EmptyString.
  - reflexivity.
  - reflexivity.
  - reflexivity.
  - reflexivity.
Defined.

(** ** Failures of commands and what the callers make of them *)

(** C1. When [subprocess.run] raises [CalledProcessError], that is when the
    process ran to its end with a nonzero status and wrote text,
    [run_command] logs the run, prints the command line, the exit code and
    the captured standard error, and returns [None]; when the process exits
    with status 0, [run_command] returns the standard output without the
    white space around it.  No caller aborts, retries or gets the exit
    status: whatever the exit statuses, every operation that does not reach
    [continuous_ping] returns, issues the commands and waits it issues when
    every process succeeds, and logs nothing but prints besides.  A caller
    does branch on the [None] to choose the line it prints: after a failed
    query [trace_route] and [ping_test] print their line of failure. *)
Theorem run_command_swallows_failures :
  forall (env : environment) (cmd : list string)
         (container : option string) (st : state),
    (forall rc out err,
        os_run env (log st) (full_cmd_of cmd container)
          = Completed rc out err ->
        rc <> 0%Z ->
        run_command env cmd container st =
          (Returns None,
           logged [ Run (full_cmd_of cmd container);
                    Print ("Error executing command: " +++
                           Py.join " " (full_cmd_of cmd container));
                    Print ("Exit code: " +++ Py.str rc);
                    Print ("Error output: " +++ err) ] st))
    /\ (forall out err,
        os_run env (log st) (full_cmd_of cmd container)
          = Completed 0 out err ->
        run_command env cmd container st =
          (Returns (Some (Py.strip out)),
           logged [Run (full_cmd_of cmd container)] st)
        /\ stripped out (Py.strip out))
    /\ (forall op,
        all_start env ->
        globals st = module_globals ->
        reaches_continuous_ping op = false ->
        fst (perform env op st) = Returns tt /\
        issued (perform env op) st = issued (perform all_succeed op) st /\
        stays_in_foreground st (snd (perform env op st)))
    /\ (forall rc out err,
        rc <> 0%Z ->
        (os_run env
           (log st ++ [Print (Py.nl +++
                              "=== Traceroute from HostA to HostB ===")])
           ["docker"; "exec"; "hosta"; "traceroute"; "-n"; "10.0.15.3"]
         = Completed rc out err ->
         exists evs,
           trace_route env st =
             (Returns tt, logged (evs ++ [Print "Traceroute failed"]) st))
        /\ (forall count,
            os_run env
              (log st ++ [Print (Py.nl +++
                                 "=== Ping test from HostA to HostB (" +++
                                 Py.str count +++ " packets) ===")])
              ["docker"; "exec"; "hosta";
               "ping"; "-c"; Py.str count; "10.0.15.3"]
            = Completed rc out err ->
            exists evs,
              ping_test env count st =
                (Returns tt, logged (evs ++ [Print "Ping failed"]) st))).
Proof.
  intros env cmd container st. split; [|split; [|split]].
  - intros rc out err H Hrc.
    rewrite (run_command_completed _ _ _ _ _ _ _ H).
    apply Z.eqb_neq in Hrc. now rewrite Hrc.
  - intros out err H. split; [|apply strip_spec].
    now rewrite (run_command_completed _ _ _ _ _ _ _ H).
  - intros op Hall Hg Hop.
    pose proof (issues_perform env op Hop) as I.
    pose proof (issues_perform all_succeed op Hop) as I0.
    destruct (issues_returns _ _ _ _ st I Hg Hall) as [[[] R] ->].
    destruct (issues_returns _ _ _ _ st I0 Hg all_start_all_succeed)
      as [_ ->].
    split; [exact R|]. split; [reflexivity|].
    apply (confined_perform env stays_in_foreground (fun _ => True)).
    + apply stays_in_foreground_refl.
    + apply stays_in_foreground_trans.
    + apply stays_in_foreground_emit.
    + trivial.
    + trivial.
    + rewrite Hop. discriminate.
  - intros rc out err Hrc.
    assert (Q : forall fallback, query_report rc out fallback = fallback).
    { intros fallback. unfold query_report, has_output.
      apply Z.eqb_neq in Hrc. now rewrite Hrc. }
    split.
    + intros H. eexists.
      unfold trace_route. rewrite (query_in_hosta _ _ _ _ _ _ _ _ H), Q.
      now rewrite app_assoc.
    + intros count H. eexists.
      unfold ping_test. rewrite (query_in_hosta _ _ _ _ _ _ _ _ H), Q.
      now rewrite app_assoc.
Qed.

Lemma run_command_swallows_failures_witness :
  run_command all_fail ["apt-get"; "update"] (Some "r1") initial_state =
    (Returns None,
     logged [ Run ["docker"; "exec"; "r1"; "apt-get"; "update"];
              Print "Error executing command: docker exec r1 apt-get update";
              Print "Exit code: 1";
              Print "Error output: failed" ] initial_state)
  /\ run_command all_succeed ["apt-get"; "update"] (Some "r1") initial_state =
       (Returns (Some EmptyString),
        logged [Run ["docker"; "exec"; "r1"; "apt-get"; "update"]]
               initial_state)
  /\ fst (perform all_fail (op_main setup_switch_ping 4) initial_state)
       = Returns tt
  /\ issued (perform all_fail (op_main setup_switch_ping 4)) initial_state
       = issued (perform all_succeed (op_main setup_switch_ping 4))
                initial_state
  /\ exists evs,
       trace_route fails_with_4242 initial_state =
         (Returns tt,
          logged (evs ++ [Print "Traceroute failed"]) initial_state).
Proof.
  split; [|split; [|split; [|split]]].
  - apply (proj1 (run_command_swallows_failures
                    all_fail ["apt-get"; "update"] (Some "r1")
                    initial_state) 1%Z EmptyString "failed");
      [reflexivity | discriminate].
  - apply (proj1 (proj2 (run_command_swallows_failures
                    all_succeed ["apt-get"; "update"] (Some "r1")
                    initial_state)) EmptyString EmptyString).
    reflexivity.
  - apply (proj1 (proj2 (proj2 (run_command_swallows_failures
                    all_fail [] None initial_state)))
             (op_main setup_switch_ping 4)).
    + intros history argv. now exists 1%Z, EmptyString, "failed".
    + reflexivity.
    + reflexivity.
  - apply (proj1 (proj2 (proj2 (run_command_swallows_failures
                    all_fail [] None initial_state)))
             (op_main setup_switch_ping 4)).
    + intros history argv. now exists 1%Z, EmptyString, "failed".
    + reflexivity.
    + reflexivity.
  - assert (N : 1%Z <> 0%Z) by discriminate.
    exact (proj1 (proj2 (proj2 (proj2 (run_command_swallows_failures
                    fails_with_4242 [] None initial_state)))
                    1%Z ("4242" +++ Py.nl) EmptyString N) eq_refl).
Defined.

(** Two facts that stand against the wider statement.  A process that exits
    with status 1 and writes bytes that are not text exits with a nonzero
    status, and [run_command] raises instead of returning [None].  And a
    caller does branch on the failure: with the same standard output,
    [trace_route] prints that output last when the process exits with status
    0, and its line of failure when the process exits with status 1. *)
Lemma callers_branch_on_the_failure :
  (exited_nonzero
     (os_run undecodable_failure []
             ["docker"; "exec"; "r1"; "apt-get"; "update"])
   /\ run_command undecodable_failure ["apt-get"; "update"] (Some "r1")
                  initial_state
      = (Raises UnicodeDecodeError,
         logged [Run ["docker"; "exec"; "r1"; "apt-get"; "update"]]
                initial_state))
  /\ (last (log (snd (trace_route prints_4242 initial_state))) PrintHelp
        = Print "4242"
      /\ last (log (snd (trace_route fails_with_4242 initial_state)))
              PrintHelp
         = Print "Traceroute failed").
Proof.
  split; [split|split].
  - simpl. discriminate.
  - reflexivity.
  - reflexivity.
  - reflexivity.
Qed.
